(** * Verification of the retrieval pipeline of test_rag

    Shallow embedding of the Python sources under [src/app]:
    - [app/parsers/text_normalizer.py]  (TextNormalizer)
    - [app/parsers/inno_parser.py], [app/parsers/project_parser.py],
      [app/parsers/models.py]            (document parser and models)
    - [app/chunker/chunker.py]          (SimpleChunker)
    - [app/vector_db/manager.py], [qdrant.py], [chroma.py]
                                        (vector-store managers)

    Python [str] values are modelled as [string] (ASCII characters), Python
    [int] as [Z], Python [float] as primitive IEEE binary64 floats, and
    Python [dict]s as association lists in insertion order, since iteration
    order is observable in the code. Exceptions are the [Err] branch of
    [result]. *)

From Stdlib Require Import ZArith Lia List Bool.
From Stdlib Require Import Strings.String Strings.Ascii.
From Stdlib Require Import Numbers.DecimalString.
From Stdlib Require Import Numbers.DecimalZ.
From Stdlib Require Import Floats.PrimFloat.
Import ListNotations.

Set Warnings "-register-all".

Open Scope string_scope.
Open Scope Z_scope.

(* ================================================================== *)
(** ** Python runtime fragment *)

(** Python exceptions raised by the modelled code. *)
Inductive py_exn : Type :=
| ValueError (msg : string)
| TypeError (msg : string)
| IndexError (msg : string)
| AttributeError (msg : string)
| FileNotFoundError (msg : string).

Inductive result (A : Type) : Type :=
| Ok (a : A)
| Err (e : py_exn).
Arguments Ok {A} a.
Arguments Err {A} e.

Definition bind {A B} (m : result A) (k : A -> result B) : result B :=
  match m with
  | Ok a => k a
  | Err e => Err e
  end.

Notation "x <- m ;; k" := (bind m (fun x => k))
  (at level 61, m at next level, right associativity).

Definition map_result {A B} (f : A -> B) (m : result A) : result B :=
  match m with
  | Ok a => Ok (f a)
  | Err e => Err e
  end.

(** [str(e)] of an exception, as used in f-strings. *)
Definition exn_str (e : py_exn) : string :=
  match e with
  | ValueError m | TypeError m | IndexError m
  | AttributeError m | FileNotFoundError m => m
  end.

(** Python values that flow through metadata and filter dictionaries.
    A dict is an association list with string keys in insertion order. *)
Inductive pyval : Type :=
| VNone
| VBool (b : bool)
| VInt (z : Z)
| VStr (s : string)
| VList (l : list pyval)
| VDict (d : list (string * pyval)).

Definition dict := list (string * pyval).

(** [d.get(k)] *)
Fixpoint dict_get (d : dict) (k : string) : option pyval :=
  match d with
  | [] => None
  | (k', v) :: d' => if String.eqb k k' then Some v else dict_get d' k
  end.

(** [d[k] = v]: an existing key keeps its position, a new key is appended. *)
Fixpoint dict_set (d : dict) (k : string) (v : pyval) : dict :=
  match d with
  | [] => [(k, v)]
  | (k', v') :: d' =>
      if String.eqb k k' then (k', v) :: d' else (k', v') :: dict_set d' k v
  end.

(** Python truthiness ([bool(v)]). *)
Definition truthy (v : pyval) : bool :=
  match v with
  | VNone => false
  | VBool b => b
  | VInt z => negb (Z.eqb z 0)
  | VStr s => negb (String.eqb s "")
  | VList l => negb (match l with [] => true | _ => false end)
  | VDict d => negb (match d with [] => true | _ => false end)
  end.

(** Decimal rendering of a Python [int]. *)
Definition Z_to_string (z : Z) : string :=
  NilEmpty.string_of_int (Z.to_int z).

Definition chr (n : nat) : string := String (ascii_of_nat n) EmptyString.

Definition hex_digit (n : nat) : string :=
  if (n <? 10)%nat then chr (48 + n) else chr (87 + n).

(** The double-quote character. *)
Definition dquote : ascii := ascii_of_nat 34.

(** [repr] of a Python [str] restricted to ASCII: single quotes unless the
    text contains a single quote and no double quote. *)
Definition str_repr (s : string) : string :=
  let q : ascii :=
    if andb (existsb (fun c => Ascii.eqb c "'"%char) (list_ascii_of_string s))
            (negb (existsb (fun c => Ascii.eqb c dquote) (list_ascii_of_string s)))
    then dquote else "'"%char in
  let esc (c : ascii) : string :=
    let n := nat_of_ascii c in
    if Ascii.eqb c "\"%char then "\\"
    else if Ascii.eqb c q then String "\"%char (String q EmptyString)
    else if (n =? 10)%nat then "\n"
    else if (n =? 13)%nat then "\r"
    else if (n =? 9)%nat then "\t"
    else if orb (n <? 32)%nat (n =? 127)%nat
    then "\x" ++ hex_digit (n / 16) ++ hex_digit (n mod 16)
    else String c EmptyString in
  String q (List.fold_right (fun c acc => esc c ++ acc) (String q EmptyString)
                            (list_ascii_of_string s)).

Fixpoint join (sep : string) (l : list string) : string :=
  match l with
  | [] => ""
  | [x] => x
  | x :: l' => x ++ sep ++ join sep l'
  end.

(** [repr(v)] *)
Fixpoint py_repr (v : pyval) : string :=
  match v with
  | VNone => "None"
  | VBool true => "True"
  | VBool false => "False"
  | VInt z => Z_to_string z
  | VStr s => str_repr s
  | VList l => "[" ++ join ", " (List.map py_repr l) ++ "]"
  | VDict d =>
      "{" ++ join ", " (List.map (fun kv => str_repr (fst kv) ++ ": " ++ py_repr (snd kv)) d)
      ++ "}"
  end.

(** [str(v)], the rendering used by f-strings. *)
Definition py_str (v : pyval) : string :=
  match v with
  | VStr s => s
  | _ => py_repr v
  end.

(* ================================================================== *)
(** ** String primitives *)

(** [c.isspace()] for ASCII characters: \t \n \v \f \r, \x1c-\x1f, space. *)
Definition is_space (c : ascii) : bool :=
  let n := nat_of_ascii c in
  orb (n =? 32)%nat (orb (andb (9 <=? n)%nat (n <=? 13)%nat)
                         (andb (28 <=? n)%nat (n <=? 31)%nat)).

Definition is_digit (c : ascii) : bool :=
  let n := nat_of_ascii c in andb (48 <=? n)%nat (n <=? 57)%nat.

Definition is_alpha (c : ascii) : bool :=
  let n := nat_of_ascii c in
  orb (andb (65 <=? n)%nat (n <=? 90)%nat) (andb (97 <=? n)%nat (n <=? 122)%nat).

(** Regex [\w] on ASCII: letters, digits and underscore. *)
Definition is_word (c : ascii) : bool :=
  orb (is_alpha c) (orb (is_digit c) (Ascii.eqb c "_"%char)).

Definition lower_char (c : ascii) : ascii :=
  let n := nat_of_ascii c in
  if andb (65 <=? n)%nat (n <=? 90)%nat then ascii_of_nat (n + 32) else c.

Definition upper_char (c : ascii) : ascii :=
  let n := nat_of_ascii c in
  if andb (97 <=? n)%nat (n <=? 122)%nat then ascii_of_nat (n - 32) else c.

Definition str_map (f : ascii -> ascii) (s : string) : string :=
  string_of_list_ascii (List.map f (list_ascii_of_string s)).

(** [s.lower()], [s.upper()] *)
Definition py_lower (s : string) : string := str_map lower_char s.
Definition py_upper (s : string) : string := str_map upper_char s.

Definition is_empty (s : string) : bool :=
  match s with EmptyString => true | _ => false end.

Fixpoint drop_while (p : ascii -> bool) (l : list ascii) : list ascii :=
  match l with
  | [] => []
  | c :: l' => if p c then drop_while p l' else l
  end.

Definition strip_by (p : ascii -> bool) (s : string) : string :=
  string_of_list_ascii
    (List.rev (drop_while p (List.rev (drop_while p (list_ascii_of_string s))))).

(** [s.strip()] *)
Definition py_strip (s : string) : string := strip_by is_space s.

(** [s.split()]: maximal runs of non-whitespace characters. *)
Fixpoint split_ws_aux (l : list ascii) (cur : list ascii) : list string :=
  match l with
  | [] => match cur with [] => [] | _ => [string_of_list_ascii (List.rev cur)] end
  | c :: l' =>
      if is_space c
      then match cur with
           | [] => split_ws_aux l' []
           | _ => string_of_list_ascii (List.rev cur) :: split_ws_aux l' []
           end
      else split_ws_aux l' (c :: cur)
  end.

Definition py_split_ws (s : string) : list string :=
  split_ws_aux (list_ascii_of_string s) [].

(** [s.split(sep)] for a one-character separator. *)
Fixpoint split_char_aux (sep : ascii) (l : list ascii) (cur : list ascii) : list string :=
  match l with
  | [] => [string_of_list_ascii (List.rev cur)]
  | c :: l' =>
      if Ascii.eqb c sep
      then string_of_list_ascii (List.rev cur) :: split_char_aux sep l' []
      else split_char_aux sep l' (c :: cur)
  end.

Definition py_split_on (sep : ascii) (s : string) : list string :=
  split_char_aux sep (list_ascii_of_string s) [].

(** [TextNormalizer.normalize] *)
Definition normalize (text : string) : string :=
  if is_empty text then "" else join " " (py_split_ws (py_lower text)).

(** [l[k:]] for any integer [k]. *)
Definition py_slice_from {A} (l : list A) (k : Z) : list A :=
  let n := Z.of_nat (List.length l) in
  let start := if k <? 0 then Z.max 0 (n + k) else Z.min k n in
  skipn (Z.to_nat start) l.

(** [l[i]] *)
Definition py_index {A} (l : list A) (i : nat) : result A :=
  match nth_error l i with
  | Some x => Ok x
  | None => Err (IndexError "list index out of range")
  end.

(** [range(start, stop, step)]: a zero step raises [ValueError]; the
    length is [max(0, ceil((stop - start) / step))]. *)
Definition py_range (start stop step : Z) : result (list Z) :=
  if step =? 0 then Err (ValueError "range() arg 3 must not be zero")
  else
    let n := if step >? 0 then (stop - start + step - 1) / step
             else (start - stop - step - 1) / (- step) in
    Ok (List.map (fun k => start + Z.of_nat k * step) (seq 0 (Z.to_nat n))).

(** [l[i:j]]: both bounds are normalised (a negative one counts from the
    end) and clamped to [[0, len(l)]]. *)
Definition py_slice {A} (l : list A) (i j : Z) : list A :=
  let n := Z.of_nat (List.length l) in
  let norm (k : Z) := if k <? 0 then Z.max 0 (n + k) else Z.min k n in
  let a := norm i in
  let b := norm j in
  firstn (Z.to_nat (b - a)) (skipn (Z.to_nat a) l).

(** [s[i:j]] on a [str]. *)
Definition str_slice (s : string) (i j : Z) : string :=
  string_of_list_ascii (py_slice (list_ascii_of_string s) i j).

(* ================================================================== *)
(** ** Chunker ([app/chunker/chunker.py]) *)

Module Chunker.

(** [@dataclass Chunk]: [text], [id], [metadata]. *)
Record Chunk : Type := mkChunk {
  text : string;
  id : string;
  metadata : dict
}.

(** [Chunk.from_dict(data, meta)]: the metadata is [{**meta, "chunk_number":
    ..., "chunks_overall": ...}]; the caller always supplies the three keys
    read with [data.get], so they are passed directly. *)
Definition from_dict (txt cid : string) (chunk_number chunks_overall : Z)
  (meta : dict) : Chunk :=
  mkChunk txt cid
    (dict_set (dict_set meta "chunk_number" (VInt chunk_number))
              "chunks_overall" (VInt chunks_overall)).

(** [SimpleChunker(chunk_size, overlap)] *)
Record SimpleChunker : Type := mkSimpleChunker {
  chunk_size : Z;
  overlap : Z
}.

Definition is_terminator (c : ascii) : bool :=
  orb (Ascii.eqb c "."%char) (orb (Ascii.eqb c "!"%char) (Ascii.eqb c "?"%char)).

(** [re.split(r'[.!?]+', text)]: the pieces between maximal runs of
    terminators. *)
Fixpoint split_terms_aux (l : list ascii) (cur : list ascii) (in_run : bool)
  : list string :=
  match l with
  | [] => [string_of_list_ascii (List.rev cur)]
  | c :: l' =>
      if is_terminator c
      then if in_run then split_terms_aux l' [] true
           else string_of_list_ascii (List.rev cur) :: split_terms_aux l' [] true
      else split_terms_aux l' (c :: cur) false
  end.

Definition split_sentences (txt : string) : list string :=
  split_terms_aux (list_ascii_of_string txt) [] false.

(** Windows [" ".join(words[i:i + step])] for [i] in [range(0, len(words),
    step)], for a positive [step]; [fuel] bounds the number of windows. *)
Fixpoint windows (fuel : nat) (step : nat) (words : list string) : list string :=
  match fuel with
  | O => []
  | S f =>
      match words with
      | [] => []
      | _ => join " " (firstn step words) :: windows f step (skipn step words)
      end
  end.

(** [SimpleChunker._split_long_sentence]; [range] with a zero step raises
    and a negative step gives an empty range. *)
Definition split_long_sentence (self : SimpleChunker) (sentence : string)
  : result (list string) :=
  let words := py_split_ws sentence in
  let step := chunk_size self / 10 in
  if step =? 0 then Err (ValueError "range() arg 3 must not be zero")
  else if step <? 0 then Ok []
  else Ok (windows (List.length words) (Z.to_nat step) words).

(** The overlap seed after a flush.  In Python [-self.overlap//10] parses as
    [(-self.overlap)//10] (unary minus binds tighter than floor division). *)
Definition overlap_seed (self : SimpleChunker) (current_chunk : string) : string :=
  let overlap_sentences :=
    py_slice_from (py_split_ws current_chunk) (Z.div (- overlap self) 10) in
  join " " overlap_sentences ++ " ".

(** The [for] loop of [chunk_by_sentences] over the sentences, threading
    [texts] and [current_chunk]. *)
Fixpoint sentence_loop (self : SimpleChunker) (sentences : list string)
  (texts : list string) (current_chunk : string)
  : result (list string * string) :=
  match sentences with
  | [] => Ok (texts, current_chunk)
  | sentence :: rest =>
      if Z.of_nat (String.length current_chunk) + Z.of_nat (String.length sentence)
         >? chunk_size self
      then
        if negb (is_empty current_chunk) then
          let texts' := (texts ++ [current_chunk])%list in
          let seeded := overlap_seed self current_chunk in
          sentence_loop self rest texts' (seeded ++ sentence ++ ". ")
        else
          pieces <- split_long_sentence self sentence ;;
          sentence_loop self rest (texts ++ pieces)%list current_chunk
      else sentence_loop self rest texts (current_chunk ++ sentence ++ ". ")
  end.

(** The chunk texts produced by [chunk_by_sentences], before wrapping. *)
Definition sentence_texts (self : SimpleChunker) (txt : string)
  : result (list string) :=
  let sentences :=
    List.filter (fun s => negb (is_empty s))
                (List.map py_strip (split_sentences txt)) in
  st <- sentence_loop self sentences [] "" ;;
  let '(texts, current_chunk) := st in
  Ok (if is_empty current_chunk then texts else (texts ++ [current_chunk])%list).

(** The id of the chunk at (0-based) position [i]:
    [f"{meta.get('CV_id', uuid.uuid4())}_chunk#{i+1}"].  The default
    [uuid.uuid4()] is evaluated on every call; [fresh i] is the rendering of
    the uuid drawn for position [i]. *)
Definition chunk_id (meta : dict) (fresh : nat -> string) (i : nat) : string :=
  let source := match dict_get meta "CV_id" with
                | Some v => py_str v
                | None => fresh i
                end in
  source ++ "_chunk#" ++ Z_to_string (Z.of_nat i + 1).

(** The second loop of [chunk_by_sentences]: [enumerate(texts)] from [i]. *)
Fixpoint wrap_from (i : nat) (total : nat) (texts : list string) (meta : dict)
  (fresh : nat -> string) : list Chunk :=
  match texts with
  | [] => []
  | t :: rest =>
      from_dict t (chunk_id meta fresh i) (Z.of_nat i + 1) (Z.of_nat total) meta
        :: wrap_from (S i) total rest meta fresh
  end.

Definition wrap_chunks (texts : list string) (meta : dict) (fresh : nat -> string)
  : list Chunk :=
  wrap_from 0 (List.length texts) texts meta fresh.

(** [SimpleChunker.chunk_by_sentences(text, meta)]; [fresh] supplies the
    uuid4 values drawn during the call. *)
Definition chunk_by_sentences (self : SimpleChunker) (txt : string) (meta : dict)
  (fresh : nat -> string) : result (list Chunk) :=
  texts <- sentence_texts self txt ;;
  Ok (wrap_chunks texts meta fresh).

(** The dict returned by [chunk_by_words] and [chunk_by_fixed_size]:
    [{"texts": texts, "chunk_ids": range(0, len(texts)), "texts_all":
    len(texts)}]. *)
Record TextsDict : Type := mkTextsDict {
  texts : list string;
  chunk_ids : list Z;
  texts_all : Z
}.

Definition texts_dict (ts : list string) : TextsDict :=
  mkTextsDict ts (List.map Z.of_nat (seq 0 (List.length ts))) (Z.of_nat (List.length ts)).

(** [SimpleChunker.chunk_by_words(text, words_per_chunk)] *)
Definition chunk_by_words (self : SimpleChunker) (txt : string) (words_per_chunk : Z)
  : result TextsDict :=
  let words := py_split_ws txt in
  starts <- py_range 0 (Z.of_nat (List.length words)) (words_per_chunk - overlap self / 5) ;;
  Ok (texts_dict (List.map (fun i => join " " (py_slice words i (i + words_per_chunk)))
                           starts)).

(** [SimpleChunker.chunk_by_fixed_size(text)] *)
Definition chunk_by_fixed_size (self : SimpleChunker) (txt : string) : result TextsDict :=
  starts <- py_range 0 (Z.of_nat (String.length txt)) (chunk_size self - overlap self) ;;
  Ok (texts_dict (List.map (fun i => str_slice txt i (i + chunk_size self)) starts)).

End Chunker.

(* ================================================================== *)
(** ** Text normalizer ([app/parsers/text_normalizer.py]) *)

Module Normalizer.

(** [lines.index(x)]: the position of the first exact match. *)
Fixpoint list_index (lines : list string) (x : string) : option nat :=
  match lines with
  | [] => None
  | y :: rest =>
      if String.eqb y x then Some 0%nat
      else option_map S (list_index rest x)
  end.

(** [TextNormalizer.extract_between_markers]; [lines[s:e]] with [e < s] is
    empty, which nat subtraction gives. *)
Definition extract_between_markers (lines : list string)
  (start_marker end_marker : string) : list string :=
  match list_index lines start_marker with
  | None => []
  | Some i =>
      let start_idx := S i in
      let items :=
        match list_index lines end_marker with
        | Some end_idx => firstn (end_idx - start_idx) (skipn start_idx lines)
        | None => skipn start_idx lines
        end in
      List.map normalize items
  end.

(** *** Regular-expression building blocks

    Matchers work on the suffix of the subject that starts at the current
    position and pass the remaining suffix to a continuation, which gives
    the backtracking order of Python's [re]. *)

(** Greedy [p*] followed by [k]: first try to consume one more character. *)
Fixpoint star_then {B} (p : ascii -> bool) (k : list ascii -> option B)
  (l : list ascii) : option B :=
  match l with
  | c :: l' =>
      if p c then
        match star_then p k l' with
        | Some r => Some r
        | None => k l
        end
      else k l
  | [] => k l
  end.

(** [\b] right after a word character: the next character is not a word
    character (or there is none). *)
Definition boundary_after_word (l : list ascii) : bool :=
  match l with
  | [] => true
  | c :: _ => negb (is_word c)
  end.

(** [(\d{1,2})\b] after nothing or a non-digit: greedy, two digits first. *)
Definition digits12_b (l : list ascii) : option (list ascii * list ascii) :=
  let one :=
    match l with
    | d1 :: after =>
        if andb (is_digit d1) (boundary_after_word after)
        then Some ([d1], after) else None
    | [] => None
    end in
  match l with
  | d1 :: d2 :: after =>
      if andb (andb (is_digit d1) (is_digit d2)) (boundary_after_word after)
      then Some ([d1; d2], after) else one
  | _ => one
  end.

Definition is_level_letter (c : ascii) : bool :=
  existsb (Ascii.eqb c) (list_ascii_of_string "ABCabc").

Definition is_dash_or_space (c : ascii) : bool :=
  orb (Ascii.eqb c "-"%char) (is_space c).

(** [([ABCabc])[\-\s]*(\d{1,2})\b] anchored at the start of [l]:
    the letter (group 1) and the digits (group 2). *)
Definition level_at (l : list ascii) : option (ascii * list ascii) :=
  match l with
  | c :: rest =>
      if is_level_letter c then
        star_then is_dash_or_space
          (fun l2 => option_map (fun r => (c, fst r)) (digits12_b l2)) rest
      else None
  | [] => None
  end.

(** [re.search]: the leftmost position where an anchored matcher succeeds. *)
Fixpoint search_from {B} (m : list ascii -> option B) (l : list ascii)
  (pos : nat) : option (nat * B) :=
  match m l with
  | Some r => Some (pos, r)
  | None =>
      match l with
      | [] => None
      | _ :: l' => search_from m l' (S pos)
      end
  end.

Definition search {B} (m : list ascii -> option B) (l : list ascii)
  : option (nat * B) :=
  search_from m l 0.

(** [([^\d]*?)(\d{1,2})\b] anchored at the start of [l]: lazy, so the
    shortest non-digit prefix is tried first. *)
Fixpoint fallback_at_aux (l : list ascii) (acc : list ascii)
  : option (list ascii * list ascii) :=
  match digits12_b l with
  | Some (ds, _) => Some (List.rev acc, ds)
  | None =>
      match l with
      | c :: l' => if is_digit c then None else fallback_at_aux l' (c :: acc)
      | [] => None
      end
  end.

Definition fallback_at (l : list ascii) : option (list ascii * list ascii) :=
  fallback_at_aux l [].

(** [re.sub(r'[^\w\s]', ' ', s)] *)
Definition blank_non_word (s : string) : string :=
  str_map (fun c => if orb (is_word c) (is_space c) then c else " "%char) s.

(** [re.sub(r'\s+', ' ', s)] *)
Fixpoint collapse_ws_aux (l : list ascii) (in_ws : bool) : list ascii :=
  match l with
  | [] => []
  | c :: l' =>
      if is_space c
      then if in_ws then collapse_ws_aux l' true else " "%char :: collapse_ws_aux l' true
      else c :: collapse_ws_aux l' false
  end.

Definition collapse_ws (s : string) : string :=
  string_of_list_ascii (collapse_ws_aux (list_ascii_of_string s) false).

(** Removal of the maximal trailing run of characters satisfying [p]:
    [re.sub(r'[...]+$', '', s)] on a string without a trailing newline
    beyond that run. *)
Definition rstrip_by (p : ascii -> bool) (s : string) : string :=
  string_of_list_ascii (List.rev (drop_while p (List.rev (list_ascii_of_string s)))).

(** [TextNormalizer.clean_language_entry] *)
Definition clean_language_entry (txt : string) : string * option string :=
  let l := list_ascii_of_string txt in
  match search level_at l with
  | Some (level_start, (level_letter, level_digit)) =>
      let level_full := string_of_list_ascii (level_letter :: level_digit) in
      let text_before := py_strip (string_of_list_ascii (firstn level_start l)) in
      let text_before_cleaned := py_strip (collapse_ws (blank_non_word text_before)) in
      (text_before_cleaned ++ " " ++ level_full, Some level_full)
  | None =>
      let fallback :=
        match search fallback_at l with
        | Some (_, (g1, g2)) =>
            let text_before := py_strip (string_of_list_ascii g1) in
            let level_digit := string_of_list_ascii g2 in
            let text_before :=
              rstrip_by (fun c => negb (orb (is_word c) (is_space c))) text_before in
            let text_before := py_strip (rstrip_by is_dash_or_space text_before) in
            if is_empty text_before then None
            else Some (text_before ++ " " ++ level_digit, Some level_digit)
        | None => None
        end in
      match fallback with
      | Some r => r
      | None => (normalize txt, None)
      end
  end.

(** *** [TextNormalizer.extract_position_level] *)

(** [LEVEL_PATTERNS], each [\b(ALT1|ALT2...)\b]; the class in
    [ENTRY[- ]LEVEL] is written as its two literal alternatives. *)
Definition LEVEL_PATTERNS : list (list string) :=
  [["SENIOR"]; ["JUNIOR"]; ["MIDDLE"]; ["LEAD"]; ["INTERN"; "INTERNSHIP"];
   ["ENTRY-LEVEL"; "ENTRY LEVEL"]; ["PRINCIPAL"]; ["STAFF"]; ["SR."]; ["JR."]].

Definition word_at (l : list ascii) (q : nat) : bool :=
  match nth_error l q with Some c => is_word c | None => false end.

(** [\b] at position [q] of [l]. *)
Definition boundary_at (l : list ascii) (q : nat) : bool :=
  xorb (match q with O => false | S q' => word_at l q' end) (word_at l q).

Fixpoint prefix_by (eq : ascii -> ascii -> bool) (p l : list ascii) : bool :=
  match p, l with
  | [], _ => true
  | c :: p', d :: l' => andb (eq c d) (prefix_by eq p' l')
  | _ :: _, [] => false
  end.

Definition ci_eq (c d : ascii) : bool := Ascii.eqb (lower_char c) (lower_char d).

(** [re.search(r'\b(ALT1|...)\b', s, re.IGNORECASE)]: at each position from
    the left, the alternatives are tried in order. *)
Definition search_word (alts : list string) (s : string) : option string :=
  let l := list_ascii_of_string s in
  let fix go (fuel pos : nat) : option string :=
    let here :=
      List.find (fun a =>
        let al := list_ascii_of_string a in
        andb (boundary_at l pos)
             (andb (prefix_by ci_eq al (skipn pos l))
                   (boundary_at l (pos + List.length al))))
        alts in
    match here with
    | Some a => Some a
    | None => match fuel with O => None | S f => go f (S pos) end
    end in
  go (List.length l) 0%nat.

(** The first pattern of [LEVEL_PATTERNS] that matches, with its match. *)
Fixpoint first_level (pats : list (list string)) (s : string) : option string :=
  match pats with
  | [] => None
  | alts :: rest =>
      match search_word alts s with
      | Some m => Some m
      | None => first_level rest s
      end
  end.

(** [re.compile(re.escape(lit), re.IGNORECASE).sub('', s, 1)] *)
Fixpoint remove_first_ci (lit : list ascii) (l : list ascii) : list ascii :=
  if prefix_by ci_eq lit l then skipn (List.length lit) l
  else match l with
       | [] => []
       | c :: l' => c :: remove_first_ci lit l'
       end.

(** One match of [\s+/\s*/\s*] at the start of [l]: the rest after it. *)
Definition double_slash_at (l : list ascii) : option (list ascii) :=
  match l with
  | c :: l0 =>
      if is_space c then
        star_then is_space
          (fun l1 => match l1 with
                     | s1 :: l2 =>
                         if Ascii.eqb s1 "/"%char then
                           star_then is_space
                             (fun l3 => match l3 with
                                        | s2 :: l4 =>
                                            if Ascii.eqb s2 "/"%char
                                            then star_then is_space Some l4
                                            else None
                                        | [] => None
                                        end) l2
                         else None
                     | [] => None
                     end) l0
      else None
  | [] => None
  end.

(** [re.sub(r'\s+/\s*/\s*', '/', s)]; [fuel] bounds the scan. *)
Fixpoint sub_double_slash (fuel : nat) (l : list ascii) : list ascii :=
  match fuel with
  | O => l
  | S f =>
      match double_slash_at l with
      | Some rest => "/"%char :: sub_double_slash f rest
      | None =>
          match l with
          | [] => []
          | c :: l' => c :: sub_double_slash f l'
          end
      end
  end.

Definition is_slash_or_space (c : ascii) : bool :=
  orb (Ascii.eqb c "/"%char) (is_space c).

(** [TextNormalizer.extract_position_level].  The second substitution
    [^\s*[/\s]+|[/\s]+\s*$] removes the leading and the trailing run of
    slashes and whitespace, which [strip_by] does. *)
Definition extract_position_level (txt : string) : option string * string :=
  let upper_text := py_upper txt in
  match first_level LEVEL_PATTERNS upper_text with
  | Some m =>
      let found_level := py_upper m in
      let t := string_of_list_ascii
                 (remove_first_ci (list_ascii_of_string m) (list_ascii_of_string txt)) in
      let t := string_of_list_ascii
                 (sub_double_slash (String.length t) (list_ascii_of_string t)) in
      let t := strip_by is_slash_or_space t in
      let t := py_strip (join " " (py_split_ws t)) in
      (Some found_level, normalize t)
  | None => (None, normalize txt)
  end.

End Normalizer.

(* ================================================================== *)
(** ** Document parser ([app/parsers/]) *)

Module Parser.
Import Normalizer.

(** A python-docx document as the parser reads it: the texts of its
    paragraphs, and its tables as rows of cell texts. *)
Definition Row := list string.
Definition Table := list Row.

Record Document : Type := mkDocument {
  paragraphs : list string;
  tables : list Table
}.

(** The file system seen by [parse]: [None] when the path does not exist,
    otherwise the outcome of [Document(file_path)]. *)
Definition FileSystem := string -> option (result Document).

(** [@dataclass Project] ([models.py]); all five fields are passed by the
    only constructor call. *)
Record Project : Type := mkProject {
  project_name : string;
  candidate_name : string;
  description : string;
  roles : list string;
  cv_id : string
}.

(** [@dataclass PersonalInfo] ([models.py]).  Dataclasses do not check
    field types, so the fields hold Python values. *)
Record PersonalInfo : Type := mkPersonalInfo {
  pi_candidate_name : pyval;
  pi_level : pyval;
  pi_roles : pyval;
  pi_education : pyval;
  pi_languages : pyval;
  pi_domains : pyval;
  pi_description : pyval
}.

(** The parameters of the generated [PersonalInfo.__init__], in order. *)
Definition PersonalInfo_fields : list string :=
  ["candidate_name"; "level"; "roles"; "education"; "languages"; "domains";
   "description"].

Definition kwarg (kwargs : list (string * pyval)) (k : string) (default : pyval)
  : pyval :=
  match dict_get kwargs k with Some v => v | None => default end.

(** [PersonalInfo(k1=v1, ...)]: an unknown keyword raises [TypeError] (the
    first one, in call order), then a missing [candidate_name] does; the
    other fields default to [None], [[]] or [""]. *)
Definition PersonalInfo_init (kwargs : list (string * pyval)) : result PersonalInfo :=
  match List.find (fun kv => negb (existsb (String.eqb (fst kv)) PersonalInfo_fields))
                  kwargs with
  | Some (k, _) =>
      Err (TypeError ("PersonalInfo.__init__() got an unexpected keyword argument '"
                      ++ k ++ "'"))
  | None =>
      match dict_get kwargs "candidate_name" with
      | None =>
          Err (TypeError ("PersonalInfo.__init__() missing 1 required positional "
                          ++ "argument: 'candidate_name'"))
      | Some name =>
          Ok (mkPersonalInfo name (kwarg kwargs "level" VNone)
                (kwarg kwargs "roles" (VList [])) (kwarg kwargs "education" (VList []))
                (kwarg kwargs "languages" (VList [])) (kwarg kwargs "domains" (VList []))
                (kwarg kwargs "description" (VStr "")))
      end
  end.

(** Attribute access [personal_info.<attr>]. *)
Definition PersonalInfo_getattr (pi : PersonalInfo) (attr : string) : result pyval :=
  if String.eqb attr "candidate_name" then Ok (pi_candidate_name pi)
  else if String.eqb attr "level" then Ok (pi_level pi)
  else if String.eqb attr "roles" then Ok (pi_roles pi)
  else if String.eqb attr "education" then Ok (pi_education pi)
  else if String.eqb attr "languages" then Ok (pi_languages pi)
  else if String.eqb attr "domains" then Ok (pi_domains pi)
  else if String.eqb attr "description" then Ok (pi_description pi)
  else Err (AttributeError ("'PersonalInfo' object has no attribute '" ++ attr ++ "'")).

(** [@dataclass CV] *)
Record CV : Type := mkCV {
  personal_info : PersonalInfo;
  projects : list Project;
  cv_id_of : string
}.

Definition str_list (l : list string) : pyval := VList (List.map VStr l).

Definition opt_str (o : option string) : pyval :=
  match o with Some s => VStr s | None => VNone end.

Definition newline : ascii := ascii_of_nat 10.

(** [InnoProjectParser.parse_project_row(cells, cv_id="", candidate_name="")] *)
Definition parse_project_row (cells : list string) (cv_id : string)
  (candidate_name : string) : result Project :=
  match cells with
  | c0 :: c1 :: _ =>
      let description := c1 in
      let project_name_parts := py_split_on newline c0 in
      let project_name := List.hd "" project_name_parts in
      let summary := match project_name_parts with
                     | _ :: s :: _ => s
                     | _ => ""
                     end in
      let description_lines := py_split_on newline description in
      let roles_line :=
        extract_between_markers description_lines "Project roles" "Period" in
      let roles := match roles_line with
                   | r :: _ => py_split_on "/"%char r
                   | [] => []
                   end in
      let description :=
        if is_empty summary then description else summary ++ " " ++ description in
      Ok (mkProject (normalize project_name) candidate_name (normalize description)
                    (List.map normalize roles) cv_id)
  | _ =>
      Err (ValueError ("Project row must have at least 2 cells, got "
                       ++ Z_to_string (Z.of_nat (List.length cells))))
  end.

(** [InnoStandardParser._parse_projects]: rows after the header of the
    second table; a row whose parsing raises is skipped.  The call passes
    the cells only, so [cv_id] and [candidate_name] take their defaults. *)
Definition parse_projects (doc : Document) : list Project :=
  match tables doc with
  | _ :: projects_table :: _ =>
      List.flat_map (fun row =>
                       match parse_project_row row "" "" with
                       | Ok p => [p]
                       | Err _ => []
                       end)
                    (List.tl projects_table)
  | _ => []
  end.

(** [InnoStandardParser._parse_personal_info] *)
Definition parse_personal_info (doc : Document) : result PersonalInfo :=
  let paragraphs := List.filter (fun t => negb (is_empty t))
                                (List.map py_strip (paragraphs doc)) in
  if Z.of_nat (List.length paragraphs) <? 3 then
    Err (ValueError ("Expected at least 3 paragraphs, got "
                     ++ Z_to_string (Z.of_nat (List.length paragraphs))))
  else
    let name := List.nth 0 paragraphs "" in
    let position_text := List.nth 1 paragraphs "" in
    let '(level, position_clean) := extract_position_level position_text in
    let roles := List.map normalize (py_split_on "/"%char position_clean) in
    match tables doc with
    | [] => Err (ValueError "Document has no tables")
    | about_table :: _ =>
        row0 <- py_index about_table 0 ;;
        about_text <- py_index row0 0 ;;
        let about_lines := py_split_on newline about_text in
        let education :=
          extract_between_markers about_lines "Education" "Language proficiency" in
        let languages_raw :=
          extract_between_markers about_lines "Language proficiency" "Domains" in
        let languages :=
          List.map (fun lang => fst (clean_language_entry lang)) languages_raw in
        let domains := extract_between_markers about_lines "Domains" "Certificates" in
        let description :=
          match row0 with
          | _ :: cell1 :: _ =>
              let description_lines := py_split_on newline cell1 in
              match description_lines with
              | _ :: d :: _ => d
              | _ => ""
              end
          | _ => ""
          end in
        PersonalInfo_init
          [("name", VStr name); ("level", opt_str level); ("roles", str_list roles);
           ("education", str_list education); ("languages", str_list languages);
           ("domains", str_list domains); ("description", VStr (normalize description))]
    end.

(** [Path(file_path).suffix] (POSIX paths): the extension of [name], the
    last component once pathlib has dropped the empty and ["."] components
    (so ["d.docx/"] and ["d.docx/."] both have the name ["d.docx"]);
    empty for names such as [".docx"] or ["a."]. *)
Definition path_suffix (path : string) : string :=
  let parts := List.filter (fun part => negb (String.eqb part "" || String.eqb part "."))
                           (py_split_on "/"%char path) in
  let name := List.last parts "" in
  let l := list_ascii_of_string name in
  let fix last_dot (l : list ascii) (i : nat) (acc : option nat) : option nat :=
    match l with
    | [] => acc
    | c :: l' => last_dot l' (S i) (if Ascii.eqb c "."%char then Some i else acc)
    end in
  match last_dot l 0%nat None with
  | Some i =>
      if andb (0 <? i)%nat (i <? List.length l - 1)%nat
      then string_of_list_ascii (skipn i l) else ""
  | None => ""
  end.

(** [BaseDocxParser._check_file_exists] *)
Definition check_file_exists (fs : FileSystem) (file_path : string) : result unit :=
  match fs file_path with
  | None => Err (FileNotFoundError ("DOCX file not found: " ++ file_path))
  | Some _ =>
      if String.eqb (py_lower (path_suffix file_path)) ".docx" then Ok tt
      else Err (ValueError ("File must be a .docx file: " ++ file_path))
  end.

(** The body of the [try] block of [InnoStandardParser.parse];
    [now] is [int(time.time())]. *)
Definition parse_body (fs : FileSystem) (file_path : string) (now : Z) : result CV :=
  doc <- match fs file_path with
         | Some r => r
         | None => Err (FileNotFoundError ("DOCX file not found: " ++ file_path))
         end ;;
  personal_info <- parse_personal_info doc ;;
  let projects := parse_projects doc in
  name <- PersonalInfo_getattr personal_info "name" ;;
  let cv_id := py_str name ++ "_" ++ Z_to_string now in
  Ok (mkCV personal_info projects cv_id).

(** [InnoStandardParser.parse(file_path)] *)
Definition parse (fs : FileSystem) (file_path : string) (now : Z) : result CV :=
  _ <- check_file_exists fs file_path ;;
  match parse_body fs file_path now with
  | Ok cv => Ok cv
  | Err e => Err (ValueError ("Error parsing DOCX file " ++ file_path ++ ": "
                              ++ exn_str e))
  end.

End Parser.

(* ================================================================== *)
(** ** Models and the CV collection ([app/parsers/models.py],
       [app/parsers/collection.py]) *)

Module Models.
Import Parser.

(** A [Project] built by [Project.from_dict]: the dataclass does not check
    field types, so the fields hold whatever values the dict has. *)
Record ProjectValue : Type := mkProjectValue {
  pv_project_name : pyval;
  pv_candidate_name : pyval;
  pv_description : pyval;
  pv_roles : pyval;
  pv_cv_id : pyval
}.

(** [Project.from_dict(data)] *)
Definition Project_from_dict (data : dict) : ProjectValue :=
  mkProjectValue (kwarg data "project_name" (VStr "")) (kwarg data "candidate_name" (VStr ""))
    (kwarg data "description" (VStr "")) (kwarg data "roles" (VList []))
    (kwarg data "cv_id" (VStr "")).

(** The [Project] of the parser seen as such a value. *)
Definition Project_value (p : Project) : ProjectValue :=
  mkProjectValue (VStr (project_name p)) (VStr (candidate_name p)) (VStr (description p))
    (str_list (roles p)) (VStr (cv_id p)).

(** [Project.metadata] *)
Definition Project_metadata (p : Project) : dict :=
  [("CV_id", VStr (cv_id p)); ("project_name", VStr (project_name p));
   ("candidate_name", VStr (candidate_name p)); ("description", VStr (description p));
   ("roles", str_list (roles p))].

(** [PersonalInfo.to_dict] *)
Definition PersonalInfo_to_dict (pi : PersonalInfo) : dict :=
  [("candidate_name", pi_candidate_name pi); ("level", pi_level pi);
   ("roles", pi_roles pi); ("education", pi_education pi);
   ("languages", pi_languages pi); ("domains", pi_domains pi);
   ("description", pi_description pi)].

(** [CV.metadata]: [{"CV_id": ..., **to_dict()}]; [to_dict] has no
    ["CV_id"] key, so the unpacking only appends. *)
Definition CV_metadata (cv : CV) : dict :=
  ("CV_id", VStr (cv_id_of cv)) :: PersonalInfo_to_dict (personal_info cv).

(** [CV.text] *)
Definition CV_text (cv : CV) : pyval := pi_description (personal_info cv).

End Models.

Module Collection.
Import Chunker Parser Models.

(** The type name in the [TypeError] raised by [re.split] on a non-string. *)
Definition py_type_name (v : pyval) : string :=
  match v with
  | VNone => "NoneType"
  | VBool _ => "bool"
  | VInt _ => "int"
  | VStr _ => "str"
  | VList _ => "list"
  | VDict _ => "dict"
  end.

(** [self.chunker.chunk_by_sentences(cv.text, cv.metadata)]: [cv.text] is
    whatever value the [PersonalInfo] holds, and [re.split] raises on a
    value that is not a string. *)
Definition chunk_value (chunker : SimpleChunker) (txt : pyval) (meta : dict)
  (fresh : nat -> string) : result (list Chunk) :=
  match txt with
  | VStr s => chunk_by_sentences chunker s meta fresh
  | v => Err (TypeError ("expected string or bytes-like object, got '"
                         ++ py_type_name v ++ "'"))
  end.

(** [CVCollection]; the parser is stateless and not represented. *)
Record CVCollection : Type := mkCVCollection {
  cvs : list CV;
  chunker : SimpleChunker;
  cv_chunks : list Chunk;
  project_chunks : list Chunk
}.

(** [CVCollection(chunk_size, chunk_overlap)] *)
Definition CVCollection_init (chunk_size chunk_overlap : Z) : CVCollection :=
  mkCVCollection [] (mkSimpleChunker chunk_size chunk_overlap) [] [].

(** [add_cv_from_file]: the collection after the call, and the returned
    id or the exception. *)
Definition add_cv_from_file (self : CVCollection) (fs : FileSystem) (file_path : string)
  (now : Z) : CVCollection * result string :=
  match parse fs file_path now with
  | Ok cv =>
      (mkCVCollection (cvs self ++ [cv])%list (chunker self) (cv_chunks self)
                      (project_chunks self), Ok (cv_id_of cv))
  | Err e => (self, Err e)
  end.

(** [get_cv] *)
Definition get_cv (self : CVCollection) (cv_id : string) : option CV :=
  List.find (fun cv => String.eqb (cv_id_of cv) cv_id) (cvs self).

(** [clear]: only the CV list is cleared. *)
Definition clear (self : CVCollection) : CVCollection :=
  mkCVCollection [] (chunker self) (cv_chunks self) (project_chunks self).

(** The inner loop of [generate_chunks] over [cv.projects]: [pcs] is
    [self.project_chunks], [k] counts the [chunk_by_sentences] calls made
    so far ([fresh k] is the uuid supply of call [k]).  On an exception the
    chunks appended so far stay. *)
Fixpoint project_loop (chunker : SimpleChunker) (ps : list Project)
  (fresh : nat -> nat -> string) (k : nat) (pcs : list Chunk)
  : list Chunk * nat * option py_exn :=
  match ps with
  | [] => (pcs, k, None)
  | p :: ps' =>
      match chunk_by_sentences chunker (description p) (Project_metadata p) (fresh k) with
      | Ok cs => project_loop chunker ps' fresh (S k) (pcs ++ cs)%list
      | Err e => (pcs, S k, Some e)
      end
  end.

(** The outer loop of [generate_chunks] over [self.cvs]. *)
Fixpoint cv_loop (chunker : SimpleChunker) (cvs : list CV)
  (fresh : nat -> nat -> string) (k : nat) (cvc pcs : list Chunk)
  : list Chunk * list Chunk * option py_exn :=
  match cvs with
  | [] => (cvc, pcs, None)
  | cv :: rest =>
      match chunk_value chunker (CV_text cv) (CV_metadata cv) (fresh k) with
      | Err e => (cvc, pcs, Some e)
      | Ok cs =>
          match project_loop chunker (projects cv) fresh (S k) pcs with
          | (pcs', k', None) => cv_loop chunker rest fresh k' (cvc ++ cs)%list pcs'
          | (pcs', _, Some e) => ((cvc ++ cs)%list, pcs', Some e)
          end
      end
  end.

(** [generate_chunks(method)]: [method] is not used; an exception is
    caught (and printed) and gives [False]. *)
Definition generate_chunks (self : CVCollection) (method : string)
  (fresh : nat -> nat -> string) : CVCollection * bool :=
  let '(cvc, pcs, err) :=
    cv_loop (chunker self) (cvs self) fresh 0 (cv_chunks self) (project_chunks self) in
  (mkCVCollection (cvs self) (chunker self) cvc pcs,
   match err with None => true | Some _ => false end).

(** The dicts [{"texts": [...], "metadatas": [...], "ids": [...]}] built by
    [prepare_chunks_qdrant]. *)
Record VectorDBData : Type := mkVectorDBData {
  vd_texts : list string;
  vd_metadatas : list dict;
  vd_ids : list string
}.

(** [f"pr#{project_number}_{chunk.id}"] *)
Definition project_entry_id (project_number : nat) (c : Chunk) : string :=
  "pr#" ++ Z_to_string (Z.of_nat project_number) ++ "_" ++ id c.

(** [prepare_chunks_qdrant]; [enumerate] pairs each chunk with its
    position. *)
Definition prepare_chunks_qdrant (self : CVCollection) : VectorDBData * VectorDBData :=
  let pcs := project_chunks self in
  (mkVectorDBData (List.map text (cv_chunks self)) (List.map metadata (cv_chunks self))
                  (List.map id (cv_chunks self)),
   mkVectorDBData (List.map text pcs) (List.map metadata pcs)
                  (List.map (fun nc => project_entry_id (fst nc) (snd nc))
                            (combine (seq 0 (List.length pcs)) pcs))).

End Collection.

(* ================================================================== *)
(** ** Vector-store managers ([app/vector_db/]) *)

Module VectorDB.

(** [@dataclass SearchResult] ([manager.py]) *)
Record SearchResult : Type := mkSearchResult {
  sr_id : string;
  sr_document : pyval;
  sr_metadata : pyval;
  sr_score : float;
  sr_distance : option float
}.

(** [@dataclass CollectionInfo] ([manager.py]) *)
Record CollectionInfo : Type := mkCollectionInfo {
  ci_name : string;
  ci_count : Z;
  ci_metadata : pyval;
  ci_dimensions : option Z
}.

(** [BaseEmbedder]: [get_embeddings] may raise. *)
Record Embedder : Type := mkEmbedder {
  get_embeddings : list string -> result (list (list float));
  dimensions : Z
}.

(** The calls a manager makes to its backend (and to its embedder), with
    the arguments that matter here. *)
Inductive Filter_condition : Type :=
| MatchValue (key : string) (value : pyval)
| MatchAny (key : string) (values : list pyval).

(** [qdrant_models.Filter(filter_dict)] (keyword arguments): [must] and [should] are given
    only when non-empty. *)
Record QFilter : Type := mkQFilter {
  f_must : option (list Filter_condition);
  f_should : option (list Filter_condition)
}.

Inductive call : Type :=
| Embed (texts : list string)
| QGetCollections
| QGetCollection (name : string)
| QCount (name : string)
| QCreateCollection (name : string) (size : Z)
| QDeleteCollection (name : string)
| QUpsert (name : string)
| QQueryPoints (name : string) (query_filter : option QFilter) (limit : option Z)
| CListCollections
| CGetCollection (name : string)
| CCreateCollection (name : string)
| CDeleteCollection (name : string)
| CCount (name : string)
| CAdd (name : string)
| CQuery (name : string).

(** A computation that records its backend calls and may raise. *)
Definition M (A : Type) : Type := (list call * result A)%type.

Definition ret {A} (a : A) : M A := ([], Ok a).

Definition raise {A} (e : py_exn) : M A := ([], Err e).

Definition mbind {A B} (m : M A) (k : A -> M B) : M B :=
  match m with
  | (t, Ok a) => let '(t', r) := k a in ((t ++ t')%list, r)
  | (t, Err e) => (t, Err e)
  end.

Notation "x <-- m ;;; k" := (mbind m (fun x => k))
  (at level 61, m at next level, right associativity).

(** A backend call with its outcome. *)
Definition invoke {A} (c : call) (r : result A) : M A := ([c], r).

(** [try: m except Exception: return handler]; calls made before the
    exception stay in the trace. *)
Definition try_except {A} (m : M A) (handler : A) : M A :=
  match m with
  | (t, Ok a) => (t, Ok a)
  | (t, Err _) => (t, Ok handler)
  end.

Definition lift {A} (r : result A) : M A := ([], r).

(** Attribute access on a client that may be [None]. *)
Definition client_of {C} (c : option C) (attr : string) : M C :=
  match c with
  | Some x => ret x
  | None => raise (AttributeError ("'NoneType' object has no attribute '" ++ attr ++ "'"))
  end.

(** *** Qdrant backend ([qdrant.py]) *)

Record ScoredPoint : Type := mkScoredPoint {
  sp_id : Z;
  sp_score : float;
  sp_payload : dict
}.

Record PointStruct : Type := mkPointStruct {
  ps_id : Z;
  ps_vector : list float;
  ps_payload : dict
}.

(** Iterating a [QueryResponse] (a pydantic model) yields its
    [(field_name, value)] pairs; its only field is [points]. *)
Definition QueryResponse := list (string * list ScoredPoint).

Definition query_response (points : list ScoredPoint) : QueryResponse :=
  [("points", points)].

Record QdrantServer : Type := mkQdrantServer {
  qs_get_collections : result (list string);
  qs_get_collection : string -> result pyval;
  qs_count : string -> result Z;
  qs_create_collection : string -> Z -> pyval -> result unit;
  qs_delete_collection : string -> result unit;
  qs_upsert : string -> list PointStruct -> result unit;
  qs_query_points : string -> option QFilter -> list float -> option Z
                    -> result QueryResponse
}.

Record QdrantManager : Type := mkQdrantManager {
  q_connected : bool;
  q_client : option QdrantServer;
  q_embedder : Embedder
}.

Definition payload_get (p : dict) (k : string) : pyval :=
  match dict_get p k with Some v => v | None => VNone end.

(** [QdrantManager._format_results]: one result per iterated pair, built
    from [result[1][0]]; an empty point list raises [IndexError]. *)
Definition qdrant_format_results (results : QueryResponse) : result (list SearchResult) :=
  let fix go (rs : QueryResponse) : result (list SearchResult) :=
    match rs with
    | [] => Ok []
    | (_, points) :: rest =>
        p <- py_index points 0 ;;
        tl <- go rest ;;
        Ok (mkSearchResult (py_str (payload_get (sp_payload p) "text_id"))
                           (payload_get (sp_payload p) "document")
                           (payload_get (sp_payload p) "metadata")
                           (sp_score p)
                           (Some (PrimFloat.sub 1.0%float (sp_score p))) :: tl)
    end in
  go results.

(** *** Chroma backend ([chroma.py]) *)

(** The [dict] returned by [collection.query]: [None] for a missing or
    [None] entry. *)
Record ChromaQueryResult : Type := mkChromaQueryResult {
  r_ids : list (list string);
  r_documents : option (list (list pyval));
  r_metadatas : option (list (list pyval));
  r_distances : option (list (list float))
}.

Definition nonempty {A} (o : option (list A)) : option (list A) :=
  match o with Some (x :: xs) => Some (x :: xs) | _ => None end.

(** [ChromaManager._format_results] *)
Definition chroma_format_results (results : ChromaQueryResult)
  : result (list SearchResult) :=
  match nonempty (r_documents results) with
  | Some (docs0 :: _) =>
      match docs0 with
      | [] => Ok []
      | _ =>
          let fix go (i : nat) (n : nat) : result (list SearchResult) :=
            match n with
            | O => Ok []
            | S n' =>
                ids0 <- py_index (r_ids results) 0 ;;
                rid <- py_index ids0 i ;;
                doc <- py_index docs0 i ;;
                md <- match nonempty (r_metadatas results) with
                      | Some ms => m0 <- py_index ms 0 ;; py_index m0 i
                      | None => Ok (VDict [])
                      end ;;
                score <- match nonempty (r_distances results) with
                         | Some ds => d0 <- py_index ds 0 ;; py_index d0 i
                         | None => Ok 0.0%float
                         end ;;
                distance <- match nonempty (r_distances results) with
                            | Some ds => d0 <- py_index ds 0 ;;
                                         map_result Some (py_index d0 i)
                            | None => Ok None
                            end ;;
                tl <- go (S i) n' ;;
                Ok (mkSearchResult rid doc md score distance :: tl)
            end in
          go 0%nat (List.length docs0)
      end
  | _ => Ok []
  end.

(** *** [QdrantManager._build_filter_from_format] *)

(** Validation done by [qdrant_models.Filter(filter_dict)] on the
    conditions: the [value] of a [MatchValue] is a [StrictBool], [StrictInt]
    or [StrictStr]; the [any] of a [MatchAny] is a [List[StrictStr]] or a
    [List[StrictInt]] (a bool is not a [StrictInt]). A failure is a
    pydantic [ValidationError], a subclass of [ValueError]. *)
Definition match_value_ok (v : pyval) : bool :=
  match v with VBool _ | VInt _ | VStr _ => true | _ => false end.

Definition is_str (v : pyval) : bool := match v with VStr _ => true | _ => false end.
Definition is_int (v : pyval) : bool := match v with VInt _ => true | _ => false end.

Definition condition_ok (c : Filter_condition) : bool :=
  match c with
  | MatchValue _ v => match_value_ok v
  | MatchAny _ vs => forallb is_str vs || forallb is_int vs
  end.

(** [filter_dict] keeps a clause only when its list is non-empty; an empty
    [filter_dict] gives [None]. *)
Definition filter_of (must_conditions should_conditions : list Filter_condition)
  : result (option QFilter) :=
  match must_conditions, should_conditions with
  | [], [] => Ok None
  | _, _ =>
      if forallb condition_ok (must_conditions ++ should_conditions)%list
      then Ok (Some (mkQFilter
                       (match must_conditions with [] => None | l => Some l end)
                       (match should_conditions with [] => None | l => Some l end)))
      else Err (ValueError "validation error for Filter")
  end.

(** The loop over [filters.items()], with the two accumulators. *)
Fixpoint build_conditions (items : dict) (must_conditions should_conditions : list Filter_condition)
  : list Filter_condition * list Filter_condition :=
  match items with
  | [] => (must_conditions, should_conditions)
  | (field_name, filter_config) :: rest =>
      match filter_config with
      | VDict cfg =>
          let must := match dict_get cfg "must" with Some m => m | None => VBool true end in
          let values := match dict_get cfg "values" with Some v => v | None => VList [] end in
          if negb (truthy values) then build_conditions rest must_conditions should_conditions
          else
            let values := match values with VList l => l | v => [v] end in
            let field_path := "metadata." ++ field_name in
            if truthy must then
              build_conditions rest
                (must_conditions ++ map (fun value => MatchValue field_path value) values)%list
                should_conditions
            else
              build_conditions rest must_conditions
                (should_conditions ++ [MatchAny field_path values])%list
      | _ => build_conditions rest must_conditions should_conditions
      end
  end.

Definition build_filter_from_format (filters : dict) : result (option QFilter) :=
  let '(must_conditions, should_conditions) := build_conditions filters [] [] in
  filter_of must_conditions should_conditions.

(** *** [QdrantManager] operations *)

Definition zero_info (name : string) : CollectionInfo :=
  mkCollectionInfo name 0 (VDict []) None.

Fixpoint zip4 {A B C D} (la : list A) (lb : list B) (lc : list C) (ld : list D)
  : list (A * B * C * D) :=
  match la, lb, lc, ld with
  | a :: la', b :: lb', c :: lc', d :: ld' => (a, b, c, d) :: zip4 la' lb' lc' ld'
  | _, _, _, _ => []
  end.

Definition make_points (ids : list string) (embeddings : list (list float))
  (documents : list string) (metadatas : list pyval) : list PointStruct :=
  let fix go (i : Z) (l : list (string * list float * string * pyval)) :=
    match l with
    | [] => []
    | (doc_id, embedding, document, metadata) :: rest =>
        mkPointStruct i embedding
          [("document", VStr document); ("metadata", metadata); ("text_id", VStr doc_id)]
          :: go (i + 1) rest
    end in
  go 0 (zip4 ids embeddings documents metadatas).

Definition embed (e : Embedder) (texts : list string) : M (list (list float)) :=
  invoke (Embed texts) (get_embeddings e texts).

Definition qdrant_list_collections (q : QdrantManager) : M (list string) :=
  if negb (q_connected q) then ret [] else
  try_except
    (c <-- client_of (q_client q) "get_collections" ;;;
     invoke QGetCollections (qs_get_collections c))
    [].

Definition qdrant_get_collection_info (q : QdrantManager) (name : string) : M CollectionInfo :=
  if negb (q_connected q) then ret (zero_info name) else
  try_except
    (c <-- client_of (q_client q) "get_collection" ;;;
     params <-- invoke (QGetCollection name) (qs_get_collection c name) ;;;
     count <-- invoke (QCount name) (qs_count c name) ;;;
     ret (mkCollectionInfo name count (if truthy params then params else VDict [])
                           (Some (dimensions (q_embedder q)))))
    (zero_info name).

Definition qdrant_create_collection (q : QdrantManager) (name : string) (metadata : pyval)
  : M bool :=
  if negb (q_connected q) then ret false else
  try_except
    (c <-- client_of (q_client q) "create_collection" ;;;
     let size := dimensions (q_embedder q) in
     _ <-- invoke (QCreateCollection name size) (qs_create_collection c name size metadata) ;;;
     ret true)
    false.

Definition qdrant_delete_collection (q : QdrantManager) (name : string) : M bool :=
  if negb (q_connected q) then ret false else
  try_except
    (c <-- client_of (q_client q) "delete_collection" ;;;
     _ <-- invoke (QDeleteCollection name) (qs_delete_collection c name) ;;;
     ret true)
    false.

Definition qdrant_insert_documents (q : QdrantManager) (collection_name : string)
  (documents : list string) (metadatas : list pyval) (ids : list string) : M bool :=
  if negb (q_connected q) then ret false else
  try_except
    (embeddings <-- embed (q_embedder q) documents ;;;
     let points := make_points ids embeddings documents metadatas in
     c <-- client_of (q_client q) "upsert" ;;;
     _ <-- invoke (QUpsert collection_name) (qs_upsert c collection_name points) ;;;
     ret true)
    false.

Definition qdrant_search (q : QdrantManager) (collection_name : string)
  (query_text : option string) (query_embedding : option (list float)) (limit : Z)
  : M (list SearchResult) :=
  if negb (q_connected q) then ret [] else
  try_except
    (emb <-- match query_embedding, query_text with
             | None, Some t => es <-- embed (q_embedder q) [t] ;;;
                               e <-- lift (py_index es 0) ;;; ret (Some e)
             | None, None => ret None
             | Some e, _ => ret (Some e)
             end ;;;
     match emb with
     | None => ret []
     | Some e =>
         c <-- client_of (q_client q) "query_points" ;;;
         resp <-- invoke (QQueryPoints collection_name None (Some limit))
                         (qs_query_points c collection_name None e (Some limit)) ;;;
         lift (qdrant_format_results resp)
     end)
    [].

(** [filtered_search]: [limit] is not passed on to [query_points]. *)
Definition qdrant_filtered_search (q : QdrantManager) (collection_name query : string)
  (filters : pyval) (limit : Z) : M (list SearchResult) :=
  if negb (q_connected q) then ret [] else
  try_except
    (if String.eqb query "" then ret [] else
     match filters with
     | VDict fs =>
         embeddings <-- embed (q_embedder q) [query] ;;;
         query_embedding <-- lift (py_index embeddings 0) ;;;
         qdrant_filter <-- lift (build_filter_from_format fs) ;;;
         c <-- client_of (q_client q) "query_points" ;;;
         resp <-- invoke (QQueryPoints collection_name qdrant_filter None)
                         (qs_query_points c collection_name qdrant_filter query_embedding None) ;;;
         lift (qdrant_format_results resp)
     | _ => ret []
     end)
    [].

(** *** [ChromaManager] operations *)

Inductive ChromaQuery : Type :=
| QueryEmbeddings (e : list (list float))
| QueryTexts (t : list string).

Record ChromaCollection : Type := mkChromaCollection {
  cc_count : result Z;
  cc_metadata : pyval;
  cc_add : option (list (list float)) -> list string -> list pyval -> list string
           -> result unit;
  cc_query : ChromaQuery -> Z -> result ChromaQueryResult
}.

Record ChromaServer : Type := mkChromaServer {
  cs_list_collections : result (list string);
  cs_get_collection : string -> result ChromaCollection;
  cs_create_collection : string -> pyval -> result unit;
  cs_delete_collection : string -> result unit
}.

(** The embedder is optional for Chroma. *)
Record ChromaManager : Type := mkChromaManager {
  c_connected : bool;
  c_client : option ChromaServer;
  c_embedder : option Embedder
}.

Definition chroma_get_collection (m : ChromaManager) (name : string) : M ChromaCollection :=
  c <-- client_of (c_client m) "get_collection" ;;;
  invoke (CGetCollection name) (cs_get_collection c name).

Definition chroma_list_collections (m : ChromaManager) : M (list string) :=
  if negb (c_connected m) then ret [] else
  try_except
    (c <-- client_of (c_client m) "list_collections" ;;;
     invoke CListCollections (cs_list_collections c))
    [].

Definition chroma_get_collection_info (m : ChromaManager) (name : string) : M CollectionInfo :=
  if negb (c_connected m) then ret (zero_info name) else
  try_except
    (collection <-- chroma_get_collection m name ;;;
     count <-- invoke (CCount name) (cc_count collection) ;;;
     let md := cc_metadata collection in
     ret (mkCollectionInfo name count (if truthy md then md else VDict []) None))
    (zero_info name).

Definition chroma_create_collection (m : ChromaManager) (name : string) (metadata : pyval)
  : M bool :=
  if negb (c_connected m) then ret false else
  try_except
    (c <-- client_of (c_client m) "create_collection" ;;;
     let md := if truthy metadata then metadata else VDict [] in
     _ <-- invoke (CCreateCollection name) (cs_create_collection c name md) ;;;
     ret true)
    false.

Definition chroma_delete_collection (m : ChromaManager) (name : string) : M bool :=
  if negb (c_connected m) then ret false else
  try_except
    (c <-- client_of (c_client m) "delete_collection" ;;;
     _ <-- invoke (CDeleteCollection name) (cs_delete_collection c name) ;;;
     ret true)
    false.

Definition chroma_insert_documents (m : ChromaManager) (collection_name : string)
  (documents : list string) (metadatas : list pyval) (ids : list string) : M bool :=
  if negb (c_connected m) then ret false else
  try_except
    (collection <-- chroma_get_collection m collection_name ;;;
     _ <-- match c_embedder m with
           | Some e =>
               embeddings <-- embed e documents ;;;
               invoke (CAdd collection_name)
                      (cc_add collection (Some embeddings) documents metadatas ids)
           | None =>
               invoke (CAdd collection_name) (cc_add collection None documents metadatas ids)
           end ;;;
     ret true)
    false.

Definition chroma_search (m : ChromaManager) (collection_name : string)
  (query_text : option string) (query_embedding : option (list float)) (limit : Z)
  : M (list SearchResult) :=
  if negb (c_connected m) then ret [] else
  try_except
    (collection <-- chroma_get_collection m collection_name ;;;
     match query_embedding, query_text with
     | Some e, _ =>
         results <-- invoke (CQuery collection_name)
                            (cc_query collection (QueryEmbeddings [e]) limit) ;;;
         lift (chroma_format_results results)
     | None, Some t =>
         results <-- invoke (CQuery collection_name)
                            (cc_query collection (QueryTexts [t]) limit) ;;;
         lift (chroma_format_results results)
     | None, None => ret []
     end)
    [].

(** *** Method dispatch on a [VectorDBManager] *)

(** The public operations, with their arguments. *)
Inductive Method : Type :=
| MListCollections
| MGetCollectionInfo (name : string)
| MCreateCollection (name : string) (metadata : pyval)
| MDeleteCollection (name : string)
| MInsertDocuments (collection_name : string) (documents : list string)
    (metadatas : list pyval) (ids : list string)
| MSearch (collection_name : string) (query_text : option string)
    (query_embedding : option (list float)) (limit : Z)
| MFilteredSearch (collection_name query : string) (filters : pyval) (limit : Z).

Inductive OpResult : Type :=
| RNames (l : list string)
| RBool (b : bool)
| RInfo (ci : CollectionInfo)
| RResults (l : list SearchResult).

Inductive Manager : Type :=
| Qdrant (q : QdrantManager)
| Chroma (m : ChromaManager).

Definition is_connected (mgr : Manager) : bool :=
  match mgr with Qdrant q => q_connected q | Chroma m => c_connected m end.

Definition fmap {A B} (f : A -> B) (m : M A) : M B :=
  (fst m, map_result f (snd m)).

(** Python attribute lookup: [ChromaManager] (and the abstract
    [VectorDBManager]) define no [filtered_search]. *)
Definition call_method (mgr : Manager) (meth : Method) : M OpResult :=
  match mgr, meth with
  | Qdrant q, MListCollections => fmap RNames (qdrant_list_collections q)
  | Qdrant q, MGetCollectionInfo n => fmap RInfo (qdrant_get_collection_info q n)
  | Qdrant q, MCreateCollection n md => fmap RBool (qdrant_create_collection q n md)
  | Qdrant q, MDeleteCollection n => fmap RBool (qdrant_delete_collection q n)
  | Qdrant q, MInsertDocuments n d md ids => fmap RBool (qdrant_insert_documents q n d md ids)
  | Qdrant q, MSearch n t e l => fmap RResults (qdrant_search q n t e l)
  | Qdrant q, MFilteredSearch n qu f l => fmap RResults (qdrant_filtered_search q n qu f l)
  | Chroma m, MListCollections => fmap RNames (chroma_list_collections m)
  | Chroma m, MGetCollectionInfo n => fmap RInfo (chroma_get_collection_info m n)
  | Chroma m, MCreateCollection n md => fmap RBool (chroma_create_collection m n md)
  | Chroma m, MDeleteCollection n => fmap RBool (chroma_delete_collection m n)
  | Chroma m, MInsertDocuments n d md ids => fmap RBool (chroma_insert_documents m n d md ids)
  | Chroma m, MSearch n t e l => fmap RResults (chroma_search m n t e l)
  | Chroma _, MFilteredSearch _ _ _ _ =>
      raise (AttributeError "'ChromaManager' object has no attribute 'filtered_search'")
  end.

(** The safe default of each operation when not connected. *)
Definition safe_default (meth : Method) : OpResult :=
  match meth with
  | MListCollections => RNames []
  | MGetCollectionInfo n => RInfo (zero_info n)
  | MCreateCollection _ _ | MDeleteCollection _ | MInsertDocuments _ _ _ _ => RBool false
  | MSearch _ _ _ _ | MFilteredSearch _ _ _ _ => RResults []
  end.

End VectorDB.

(** *** Operations built on the public ones ([manager.py], [qdrant.py]) *)

Module VectorDBOps.
Import VectorDB.

(** [QdrantManager.check_collection] *)
Definition check_collection (q : QdrantManager) (collection : string) : M bool :=
  if negb (q_connected q) then ret false else
  names <-- qdrant_list_collections q ;;;
  ret (existsb (String.eqb collection) names).

(** [QdrantManager.recreate_collection(collection, meatadata=None)]: a
    falsy metadata is replaced by [{"about": "new collection"}]. *)
Definition recreate_collection (q : QdrantManager) (collection : string) (meatadata : pyval)
  : M unit :=
  let meatadata :=
    if truthy meatadata then meatadata else VDict [("about", VStr "new collection")] in
  found <-- check_collection q collection ;;;
  if negb found then
    _ <-- qdrant_create_collection q collection meatadata ;;;
    ret tt
  else
    _ <-- qdrant_delete_collection q collection ;;;
    _ <-- qdrant_create_collection q collection meatadata ;;;
    ret tt.

(** [self.embedder] of a manager; [QdrantManager.__init__] rejects [None]. *)
Definition embedder_of (mgr : Manager) : option Embedder :=
  match mgr with
  | Qdrant q => Some (q_embedder q)
  | Chroma m => c_embedder m
  end.

(** [self.search(...)], dispatched on the manager's class. *)
Definition manager_search (mgr : Manager) (collection_name : string)
  (query_text : option string) (query_embedding : option (list float)) (limit : Z)
  : M (list SearchResult) :=
  match mgr with
  | Qdrant q => qdrant_search q collection_name query_text query_embedding limit
  | Chroma m => chroma_search m collection_name query_text query_embedding limit
  end.

(** [VectorDBManager.search_by_text]: an embedder object is always truthy;
    the embedding is computed outside any [try]. *)
Definition search_by_text (mgr : Manager) (collection_name query : string) (limit : Z)
  : M (list SearchResult) :=
  match embedder_of mgr with
  | Some e =>
      embeddings <-- embed e [query] ;;;
      embedding <-- lift (py_index embeddings 0) ;;;
      manager_search mgr collection_name None (Some embedding) limit
  | None => manager_search mgr collection_name (Some query) None limit
  end.

End VectorDBOps.

(** ** Sample input *)

Module ParserSamples.
Import Parser.

(** A CV in the shape of the input contract, used by the witnesses. *)
Definition nl : string := String newline EmptyString.

Definition jane_doe : Document :=
  mkDocument ["Jane Doe"; "SENIOR DATA SCIENTIST"; "Minsk"]
    [[["Education" ++ nl ++ "BSU" ++ nl ++ "Language proficiency" ++ nl
       ++ "English (B2)" ++ nl ++ "Domains" ++ nl ++ "Finance" ++ nl ++ "Certificates";
       "About" ++ nl ++ "Data scientist with ten years of experience"]];
     [["Project"; "Details"];
      ["Fraud" ++ nl ++ "Detection system";
       "Project roles" ++ nl ++ "ML Engineer / Data Scientist" ++ nl ++ "Period"
       ++ nl ++ "2020"]]].

Definition jane_fs : FileSystem :=
  fun p => if String.eqb p "jane_doe.docx" then Some (Ok jane_doe) else None.

End ParserSamples.

(** ** The filter translation as the spec describes it *)

(** Field by field: a field whose config is a mapping with a truthy
    [values] entry contributes, on path [metadata.<field>], one equality
    condition per value to [must] when its [must] entry (default true) is
    truthy, and one value-is-one-of condition over all its values to
    [should] otherwise; a non-list [values] entry stands for a one-element
    list. *)
Module FilterSpec.
Import VectorDB.

Definition field_values (cfg : dict) : list pyval :=
  match dict_get cfg "values" with
  | Some (VList l) => l
  | Some v => if truthy v then [v] else []
  | None => []
  end.

Definition field_active (cfg : dict) : bool :=
  match dict_get cfg "values" with Some v => truthy v | None => false end.

Definition field_is_must (cfg : dict) : bool :=
  match dict_get cfg "must" with Some m => truthy m | None => true end.

Definition spec_must (item : string * pyval) : list Filter_condition :=
  match item with
  | (field_name, VDict cfg) =>
      if field_active cfg && field_is_must cfg
      then map (MatchValue ("metadata." ++ field_name)) (field_values cfg)
      else []
  | _ => []
  end.

Definition spec_should (item : string * pyval) : list Filter_condition :=
  match item with
  | (field_name, VDict cfg) =>
      if field_active cfg && negb (field_is_must cfg)
      then [MatchAny ("metadata." ++ field_name) (field_values cfg)]
      else []
  | _ => []
  end.

End FilterSpec.

(** ** Sample managers and inputs *)

Module VectorDBSamples.
Import VectorDB.

Definition unit_embedder : Embedder :=
  mkEmbedder (fun ts => Ok (map (fun _ => [1.0%float]) ts)) 1.

Definition chroma_sample_result : ChromaQueryResult :=
  mkChromaQueryResult [["cv1_0"]] (Some [[VStr "Python developer"]])
    (Some [[VDict []]]) (Some [[0.25%float]]).

Definition chroma_sample_collection : ChromaCollection :=
  mkChromaCollection (Ok 1) (VDict []) (fun _ _ _ _ => Ok tt)
    (fun _ _ => Ok chroma_sample_result).

Definition chroma_sample_server : ChromaServer :=
  mkChromaServer (Ok ["cvs"]) (fun _ => Ok chroma_sample_collection)
    (fun _ _ => Ok tt) (fun _ => Ok tt).

Definition chroma_online : ChromaManager :=
  mkChromaManager true (Some chroma_sample_server) None.

Definition chroma_offline : ChromaManager := mkChromaManager false None None.

Definition qdrant_sample_point : ScoredPoint :=
  mkScoredPoint 0 0.75%float
    [("document", VStr "Python developer"); ("metadata", VDict []); ("text_id", VStr "cv1_0")].

Definition qdrant_sample_server : QdrantServer :=
  mkQdrantServer (Ok ["cvs"]) (fun _ => Ok (VDict [])) (fun _ => Ok 1)
    (fun _ _ _ => Ok tt) (fun _ => Ok tt) (fun _ _ => Ok tt)
    (fun _ _ _ _ => Ok (query_response [qdrant_sample_point])).

Definition qdrant_online : QdrantManager :=
  mkQdrantManager true (Some qdrant_sample_server) unit_embedder.

Definition qdrant_offline : QdrantManager := mkQdrantManager false None unit_embedder.

(** [{"level": {"must": False, "values": 0}}] *)
Definition level_should_zero : dict :=
  [("level", VDict [("must", VBool false); ("values", VInt 0)])].

(** [{"languages": {"values": []}, "about": "x"}]: no field contributes. *)
Definition inactive_filters : dict :=
  [("languages", VDict [("values", VList [])]); ("about", VStr "x")].

End VectorDBSamples.

(** ** A sample collection *)

Module CollectionSamples.
Import Chunker Parser Collection.

Definition sample_project : Project :=
  mkProject "Fraud" "Jane Doe" "Detection system. Built the scoring model."
    ["ML Engineer"] "Jane Doe_1700000000".

Definition sample_cv : CV :=
  mkCV (mkPersonalInfo (VStr "Jane Doe") (VStr "SENIOR") (VList [VStr "Data Scientist"])
          (VList [VStr "BSU"]) (VList [VStr "English (B2)"]) (VList [VStr "Finance"])
          (VStr "Data scientist. Ten years of work."))
       [sample_project] "Jane Doe_1700000000".

Definition sample_collection : CVCollection :=
  mkCVCollection [sample_cv] (mkSimpleChunker 20 0) [] [].

End CollectionSamples.

(** ** Predicates on strings used by the proofs *)

(** No whitespace character. *)
Definition no_space (l : list ascii) : Prop := Forall (fun c => is_space c = false) l.

(** A word of [s.split()]: non-empty, without whitespace. *)
Definition good_word (w : string) : Prop :=
  list_ascii_of_string w <> [] /\ no_space (list_ascii_of_string w).

(** The [IndexError] raised by an out-of-range [list[i]]. *)
Definition IE : py_exn := IndexError "list index out of range".

(** A computation that returns, or raises that [IndexError]. *)
Definition ie_or_ok {A} (r : result A) : Prop := r = Err IE \/ exists x, r = Ok x.

(** No underscore character. *)
Definition no_underscore (s : string) : Prop :=
  Forall (fun c => c <> "_"%char) (list_ascii_of_string s).

(* ================================================================== *)
(** * Theorems *)

(* ------------------------------------------------------------------ *)
(** ** Dictionary and list facts *)

Lemma dict_get_set_same (d : dict) (k : string) (v : pyval) :
  dict_get (dict_set d k v) k = Some v.
Proof.
  induction d as [| [k' v'] d IH]; simpl.
  - rewrite String.eqb_refl. reflexivity.
  - destruct (String.eqb k k') eqn:E; simpl; rewrite ?E; auto.
Qed.

Lemma dict_get_set_other (d : dict) (k k2 : string) (v : pyval) :
  k2 <> k -> dict_get (dict_set d k v) k2 = dict_get d k2.
Proof.
  intros Hne. induction d as [| [k' v'] d IH]; simpl.
  - apply String.eqb_neq in Hne. rewrite Hne. reflexivity.
  - destruct (String.eqb k k') eqn:E; simpl.
    + apply String.eqb_eq in E. subst k'.
      apply String.eqb_neq in Hne. rewrite Hne. reflexivity.
    + destruct (String.eqb k2 k'); auto.
Qed.

Module ChunkerFacts.
Import Chunker.

Lemma wrap_from_length i total texts meta fresh :
  List.length (wrap_from i total texts meta fresh) = List.length texts.
Proof.
  revert i. induction texts as [| t texts IH]; intros i; simpl; auto.
Qed.

Lemma wrap_from_nth i total texts meta fresh j :
  nth_error (wrap_from i total texts meta fresh) j =
  option_map (fun t => from_dict t (chunk_id meta fresh (i + j))
                         (Z.of_nat (i + j) + 1) (Z.of_nat total) meta)
             (nth_error texts j).
Proof.
  revert i j. induction texts as [| t texts IH]; intros i j; simpl.
  - destruct j; reflexivity.
  - destruct j as [| j]; simpl.
    + rewrite Nat.add_0_r. reflexivity.
    + rewrite IH. replace (S i + j)%nat with (i + S j)%nat by lia. reflexivity.
Qed.

(** [(-n)//10] is minus the ceiling of [n/10]. *)
Lemma neg_floor_div_10 (n : Z) : Z.div (- n) 10 = - ((n + 9) / 10).
Proof.
  pose proof (Z.div_mod (- n) 10 ltac:(lia)) as H1.
  pose proof (Z.mod_pos_bound (- n) 10 ltac:(lia)) as H2.
  pose proof (Z.div_mod (n + 9) 10 ltac:(lia)) as H3.
  pose proof (Z.mod_pos_bound (n + 9) 10 ltac:(lia)) as H4.
  lia.
Qed.

(** The flush seeds the next buffer with the last [ceil(overlap/10)] words
    (all words when [overlap <= 0]). *)
Lemma overlap_seed_ceil (self : SimpleChunker) (cur : string) :
  overlap_seed self cur =
  join " " (py_slice_from (py_split_ws cur) (- ((overlap self + 9) / 10))) ++ " ".
Proof. unfold overlap_seed. rewrite neg_floor_div_10. reflexivity. Qed.

End ChunkerFacts.

(* ------------------------------------------------------------------ *)
(** ** Chunking claims *)

Module ChunkerClaims.
Import Chunker ChunkerFacts.

(** Claim C2 (code defect).  After a flush, [chunk_by_sentences] seeds the
    next buffer with the last [(-overlap)//10] words of the flushed buffer,
    i.e. [ceil(overlap/10)] words, not [overlap//10]: with [overlap = 5] one
    word ("bbbb.") is carried over where the claim expects none, and with
    [overlap = 0] the slice [[-0:]] carries the whole flushed buffer. *)
Theorem C2_overlap_seed_at_small_overlap :
  sentence_texts (mkSimpleChunker 10 5) "aaaa bbbb. cccc dddd."
  = Ok ["aaaa bbbb. "; "bbbb. cccc dddd. "] /\
  sentence_texts (mkSimpleChunker 10 0) "aaaa bbbb. cccc dddd."
  = Ok ["aaaa bbbb. "; "aaaa bbbb. cccc dddd. "].
Proof. split; vm_compute; reflexivity. Qed.

(** Claim C9.  For every input on which [chunk_by_sentences] returns, the
    chunk at 0-based position [i] has [chunk_number = i + 1], [chunks_overall]
    equal to the number of chunks, [1 <= chunk_number <= chunks_overall], and
    id [{source_id}_chunk#{i+1}], where the source id is [str(meta["CV_id"])]
    when present and otherwise the uuid4 drawn for that chunk. *)
Theorem C9_chunk_numbering :
  forall (self : SimpleChunker) (txt : string) (meta : dict)
         (fresh : nat -> string) (chunks : list Chunk),
  chunk_by_sentences self txt meta fresh = Ok chunks ->
  forall (i : nat) (c : Chunk), nth_error chunks i = Some c ->
    dict_get (metadata c) "chunk_number" = Some (VInt (Z.of_nat i + 1)) /\
    dict_get (metadata c) "chunks_overall"
      = Some (VInt (Z.of_nat (List.length chunks))) /\
    1 <= Z.of_nat i + 1 <= Z.of_nat (List.length chunks) /\
    id c = (match dict_get meta "CV_id" with
            | Some v => py_str v
            | None => fresh i
            end) ++ "_chunk#" ++ Z_to_string (Z.of_nat i + 1).
Proof.
  intros self txt meta fresh chunks Hrun i c Hi.
  unfold chunk_by_sentences in Hrun.
  destruct (sentence_texts self txt) as [texts |] eqn:Ht; simpl in Hrun;
    [| discriminate].
  injection Hrun as <-.
  assert (Hlen : List.length (wrap_chunks texts meta fresh) = List.length texts)
    by apply wrap_from_length.
  pose proof Hi as Hi'.
  unfold wrap_chunks in Hi. rewrite wrap_from_nth in Hi. simpl in Hi.
  destruct (nth_error texts i) as [t |] eqn:Hti; simpl in Hi; [| discriminate].
  injection Hi as <-.
  assert (Hlt : (i < List.length texts)%nat)
    by (apply nth_error_Some; rewrite Hti; discriminate).
  rewrite Hlen. unfold from_dict; simpl.
  split; [| split; [| split]].
  - rewrite dict_get_set_other by discriminate.
    apply dict_get_set_same.
  - apply dict_get_set_same.
  - lia.
  - reflexivity.
Qed.

(** Claim C10 (as amended).  Two runs on the same text, metadata and
    configuration yield the same chunk texts and metadata in the same order,
    whatever uuids are drawn; the full chunks, ids included, coincide
    whenever the metadata has a [CV_id] key. *)
Theorem C10_deterministic_up_to_uuid :
  forall (self : SimpleChunker) (txt : string) (meta : dict)
         (fresh1 fresh2 : nat -> string),
  map_result (List.map (fun c => (text c, metadata c)))
             (chunk_by_sentences self txt meta fresh1) =
  map_result (List.map (fun c => (text c, metadata c)))
             (chunk_by_sentences self txt meta fresh2) /\
  (dict_get meta "CV_id" <> None ->
   chunk_by_sentences self txt meta fresh1 = chunk_by_sentences self txt meta fresh2).
Proof.
  intros self txt meta fresh1 fresh2.
  unfold chunk_by_sentences.
  destruct (sentence_texts self txt) as [texts |]; simpl; [| split; reflexivity].
  unfold wrap_chunks. generalize 0%nat as i.
  generalize (List.length texts) as total.
  split.
  - f_equal. revert i. induction texts as [| t texts IH]; intros i; simpl; auto.
    f_equal. apply IH.
  - intros Hcv. f_equal. revert i. induction texts as [| t texts IH]; intros i;
      simpl; auto.
    f_equal; [| apply IH].
    unfold from_dict, chunk_id.
    destruct (dict_get meta "CV_id"); [reflexivity | contradiction].
Qed.

Lemma C10_witness :
  dict_get [("CV_id", VStr "jane_1")] "CV_id" <> None /\
  chunk_by_sentences (mkSimpleChunker 1000 100) "One. Two." [("CV_id", VStr "jane_1")]
    (fun _ => "u1") =
  chunk_by_sentences (mkSimpleChunker 1000 100) "One. Two." [("CV_id", VStr "jane_1")]
    (fun _ => "u2").
Proof.
  assert (H : dict_get [("CV_id", VStr "jane_1")] "CV_id" <> None)
    by (simpl; discriminate).
  split; [exact H |].
  exact (proj2 (C10_deterministic_up_to_uuid (mkSimpleChunker 1000 100) "One. Two."
                  [("CV_id", VStr "jane_1")] (fun _ => "u1") (fun _ => "u2")) H).
Defined.

(** Counterexample to claim C10 as stated: without a [CV_id] key in the
    metadata, two runs on the same text and metadata differ in the ids,
    which embed the uuid4 drawn during each run. *)
Lemma C10_counterexample :
  chunk_by_sentences (mkSimpleChunker 1000 100) "One." [] (fun _ => "uuid-a")
  <> chunk_by_sentences (mkSimpleChunker 1000 100) "One." [] (fun _ => "uuid-b").
Proof. vm_compute. intros H. injection H. discriminate. Qed.

Lemma C9_witness :
  exists chunks,
  chunk_by_sentences (mkSimpleChunker 10 5) "aaaa bbbb. cccc dddd."
    [("CV_id", VStr "jane_1")] (fun _ => "u") = Ok chunks /\
  dict_get (metadata (List.nth 1 chunks (mkChunk "" "" []))) "chunk_number"
    = Some (VInt 2).
Proof.
  eexists. split; [vm_compute; reflexivity |].
  refine (proj1 (C9_chunk_numbering (mkSimpleChunker 10 5) "aaaa bbbb. cccc dddd."
            [("CV_id", VStr "jane_1")] (fun _ => "u") _ _ 1 _ _)).
  - vm_compute. reflexivity.
  - vm_compute. reflexivity.
Defined.

End ChunkerClaims.

(* ------------------------------------------------------------------ *)
(** ** Normalizer facts *)

Module NormalizerFacts.
Import Normalizer.

Lemma list_index_not_in (l : list string) (x : string) :
  ~ In x l -> list_index l x = None.
Proof.
  induction l as [| y l IH]; simpl; intros Hn; auto.
  destruct (String.eqb y x) eqn:E.
  - apply String.eqb_eq in E. subst. exfalso. auto.
  - rewrite IH; auto.
Qed.

Lemma list_index_first (pre rest : list string) (x : string) :
  ~ In x pre -> list_index (pre ++ x :: rest) x = Some (List.length pre).
Proof.
  induction pre as [| y pre IH]; simpl; intros Hn.
  - rewrite String.eqb_refl. reflexivity.
  - destruct (String.eqb y x) eqn:E.
    + apply String.eqb_eq in E. subst. exfalso. auto.
    + rewrite IH; auto.
Qed.

Lemma list_index_in_prefix (pre rest : list string) (x : string) :
  In x pre -> exists k, list_index (pre ++ rest) x = Some k /\ (k < List.length pre)%nat.
Proof.
  induction pre as [| y pre IH]; simpl; intros Hin; [contradiction |].
  destruct (String.eqb y x) eqn:E.
  - exists 0%nat. split; [reflexivity | lia].
  - destruct Hin as [-> | Hin]; [rewrite String.eqb_refl in E; discriminate |].
    destruct (IH Hin) as [k [Hk Hlt]].
    exists (S k). rewrite Hk. split; [reflexivity | lia].
Qed.

Lemma star_then_sound {B} (p : ascii -> bool) (k : list ascii -> option B)
  (l : list ascii) (r : B) :
  star_then p k l = Some r -> exists l', k l' = Some r.
Proof.
  induction l as [| c l IH]; simpl; intros H; eauto.
  destruct (p c); eauto.
  destruct (star_then p k l) eqn:E; eauto.
Qed.

Lemma search_from_sound {B} (m : list ascii -> option B) (l : list ascii)
  (pos p : nat) (r : B) :
  search_from m l pos = Some (p, r) -> exists l', m l' = Some r.
Proof.
  revert pos. induction l as [| c l IH]; intros pos; simpl.
  - destruct (m []) eqn:E; intros H; [injection H as _ <-; eauto | discriminate].
  - destruct (m (c :: l)) eqn:E; intros H; [injection H as _ <-; eauto |].
    eapply IH; eauto.
Qed.

Lemma digits12_b_sound (l ds after : list ascii) :
  digits12_b l = Some (ds, after) ->
  (List.length ds = 1 \/ List.length ds = 2)%nat /\ Forall (fun d => is_digit d = true) ds.
Proof.
  unfold digits12_b. intros H.
  destruct l as [| d1 [| d2 l]];
    repeat match goal with
    | H : (if ?b then _ else _) = _ |- _ =>
        let E := fresh "E" in destruct b eqn:E; try discriminate
    | H : None = Some _ |- _ => discriminate
    | H : Some _ = Some _ |- _ => injection H as <- _
    | E : (_ && _)%bool = true |- _ => apply andb_prop in E as [? ?]
    end;
    split; simpl; auto; repeat constructor; assumption.
Qed.

Lemma level_at_sound (l : list ascii) (letter : ascii) (ds : list ascii) :
  level_at l = Some (letter, ds) ->
  is_level_letter letter = true /\
  (List.length ds = 1 \/ List.length ds = 2)%nat /\
  Forall (fun d => is_digit d = true) ds.
Proof.
  unfold level_at. destruct l as [| c rest]; [discriminate |].
  destruct (is_level_letter c) eqn:Ec; [| discriminate].
  intros H. apply star_then_sound in H as [l' H].
  destruct (digits12_b l') as [[ds' after] |] eqn:Ed; simpl in H; [| discriminate].
  injection H as <- <-.
  split; [exact Ec |]. eapply digits12_b_sound; eauto.
Qed.

Definition word_or_blank (c : ascii) : bool := orb (is_word c) (Ascii.eqb c " "%char).

Lemma list_ascii_string_of_list (l : list ascii) :
  list_ascii_of_string (string_of_list_ascii l) = l.
Proof.
  induction l as [| c l IH]; simpl; [reflexivity | rewrite IH; reflexivity].
Qed.

Lemma drop_while_Forall (p q : ascii -> bool) (l : list ascii) :
  Forall (fun c => q c = true) l -> Forall (fun c => q c = true) (drop_while p l).
Proof.
  induction l as [| c l IH]; simpl; intros H; auto.
  inversion H; subst. destruct (p c); auto.
Qed.

Lemma strip_by_Forall (p q : ascii -> bool) (s : string) :
  Forall (fun c => q c = true) (list_ascii_of_string s) ->
  Forall (fun c => q c = true) (list_ascii_of_string (strip_by p s)).
Proof.
  intros H. unfold strip_by. rewrite list_ascii_string_of_list.
  apply Forall_rev, drop_while_Forall, Forall_rev, drop_while_Forall, H.
Qed.

Lemma collapse_ws_aux_Forall (l : list ascii) (b : bool) :
  Forall (fun c => orb (is_word c) (is_space c) = true) l ->
  Forall (fun c => word_or_blank c = true) (collapse_ws_aux l b).
Proof.
  revert b. induction l as [| c l IH]; intros b H; simpl; [constructor |].
  inversion H as [| ? ? Hc Hl]; subst. cbv beta in Hc.
  destruct (is_space c) eqn:Es.
  - destruct b; [apply IH; auto |].
    constructor; [reflexivity | apply IH; auto].
  - constructor; [| apply IH; auto].
    unfold word_or_blank. rewrite orb_false_r in Hc. rewrite Hc.
    reflexivity.
Qed.

(** The language name kept before the level consists of word characters and
    single blanks only. *)
Lemma cleaned_prefix_chars (s : string) :
  Forall (fun c => word_or_blank c = true)
    (list_ascii_of_string (py_strip (collapse_ws (blank_non_word s)))).
Proof.
  apply strip_by_Forall. unfold collapse_ws. rewrite list_ascii_string_of_list.
  apply collapse_ws_aux_Forall.
  unfold blank_non_word, str_map. rewrite list_ascii_string_of_list.
  apply Forall_forall. intros c Hc. apply in_map_iff in Hc as [d [<- _]].
  destruct (is_word d || is_space d) eqn:E; [exact E | reflexivity].
Qed.

End NormalizerFacts.

(* ------------------------------------------------------------------ *)
(** ** Normalizer claims *)

Module NormalizerClaims.
Import Normalizer NormalizerFacts.

(** Claim C7 (code defect).  What [extract_between_markers lines s e]
    does: it is empty
    when [s] does not occur; otherwise, with [s] first occurring after
    [pre], it returns the normalized lines after it up to the first
    occurrence of [e] in the whole list: the lines up to [e] when [e] first
    occurs after the start marker, all remaining lines when [e] does not
    occur, and nothing when [e] first occurs at or before the start
    marker, because [lines.index(end_marker)] searches from the start of
    the list rather than after the start marker. *)
Theorem C7_extract_between_markers :
  forall (lines : list string) (start_marker end_marker : string),
  (~ In start_marker lines ->
   extract_between_markers lines start_marker end_marker = []) /\
  (forall pre rest, lines = (pre ++ start_marker :: rest)%list -> ~ In start_marker pre ->
     (~ In end_marker lines ->
      extract_between_markers lines start_marker end_marker = List.map normalize rest) /\
     (forall mid post, rest = (mid ++ end_marker :: post)%list ->
      ~ In end_marker (pre ++ start_marker :: mid)%list ->
      extract_between_markers lines start_marker end_marker = List.map normalize mid) /\
     (In end_marker (pre ++ [start_marker])%list ->
      extract_between_markers lines start_marker end_marker = [])).
Proof.
  intros lines sm em. unfold extract_between_markers. split.
  - intros Hn. rewrite list_index_not_in by exact Hn. reflexivity.
  - intros pre rest -> Hpre.
    rewrite list_index_first by exact Hpre.
    assert (Hskip : skipn (S (List.length pre)) (pre ++ sm :: rest)%list = rest).
    { rewrite skipn_app. rewrite skipn_all2 by lia.
      replace (S (List.length pre) - List.length pre)%nat with 1%nat by lia.
      reflexivity. }
    split; [| split].
    + intros Hn. rewrite list_index_not_in by exact Hn.
      rewrite Hskip. reflexivity.
    + intros mid post -> Hfirst.
      replace (pre ++ sm :: mid ++ em :: post)%list
        with ((pre ++ sm :: mid) ++ em :: post)%list
        by (rewrite <- app_assoc; reflexivity).
      rewrite list_index_first by exact Hfirst.
      rewrite <- app_assoc, <- app_comm_cons, Hskip.
      rewrite length_app. simpl.
      replace (List.length pre + S (List.length mid) - S (List.length pre))%nat
        with (List.length mid) by lia.
      rewrite firstn_app, firstn_all, Nat.sub_diag. simpl. rewrite app_nil_r.
      reflexivity.
    + intros Hin.
      replace (pre ++ sm :: rest)%list with ((pre ++ [sm]) ++ rest)%list
        by (rewrite <- app_assoc; reflexivity).
      destruct (list_index_in_prefix (pre ++ [sm]) rest em Hin) as [k [Hk Hlt]].
      rewrite Hk. rewrite length_app in Hlt. simpl in Hlt.
      replace (k - S (List.length pre))%nat with 0%nat by lia.
      reflexivity.
Qed.

Lemma C7_witness :
  ~ In "Domains" ["Domains"; "Education"; "BSU"; "Domains"] \/
  extract_between_markers ["Domains"; "Education"; "BSU"; "Domains"]
    "Education" "Domains" = [].
Proof.
  right.
  refine (proj2 (proj2 (proj2 (C7_extract_between_markers
            ["Domains"; "Education"; "BSU"; "Domains"] "Education" "Domains")
            ["Domains"] ["BSU"; "Domains"] _ _)) _).
  - reflexivity.
  - simpl. intros [H | []]. discriminate.
  - simpl. left. reflexivity.
Defined.

(** Counterexample to claim C7 as stated: when the end marker also occurs
    before the start marker, the code returns nothing instead of the lines
    up to the first subsequent end marker (here ["bsu"]). *)
Lemma C7_counterexample :
  extract_between_markers ["Domains"; "Education"; "BSU"; "Domains"]
    "Education" "Domains" <> ["bsu"].
Proof. vm_compute. discriminate. Qed.

(** Claim C8 (as amended).  The two examples, and, whenever the CEFR
    pattern is first found at position [pos] with letter [letter] and
    digits [digits]: [letter] is one of A, B, C, a, b, c; there are one or
    two digits; the returned level is exactly [letter] followed by
    [digits]; and the returned text is the text before [pos], stripped,
    with every character that is neither a word character nor whitespace
    replaced by a blank, whitespace runs collapsed and stripped again, then
    a blank, then the level.  That cleaned prefix consists of word
    characters and blanks. *)
Theorem C8_clean_language_entry :
  clean_language_entry "English (B2)" = ("English B2", Some "B2") /\
  clean_language_entry "no level here" = ("no level here", None) /\
  (forall (txt : string) (pos : nat) (letter : ascii) (digits : list ascii),
   search level_at (list_ascii_of_string txt) = Some (pos, (letter, digits)) ->
   let prefix := py_strip (collapse_ws (blank_non_word
                   (py_strip (string_of_list_ascii (firstn pos (list_ascii_of_string txt)))))) in
   is_level_letter letter = true /\
   (List.length digits = 1 \/ List.length digits = 2)%nat /\
   Forall (fun d => is_digit d = true) digits /\
   Forall (fun x => word_or_blank x = true) (list_ascii_of_string prefix) /\
   clean_language_entry txt =
     (prefix ++ " " ++ string_of_list_ascii (letter :: digits),
      Some (string_of_list_ascii (letter :: digits)))).
Proof.
  split; [vm_compute; reflexivity |].
  split; [vm_compute; reflexivity |].
  intros txt pos letter digits Hs prefix.
  pose proof Hs as Hs'.
  unfold search in Hs'. apply search_from_sound in Hs' as [l' Hl'].
  destruct (level_at_sound _ _ _ Hl') as [Hlet [Hlen Hdig]].
  split; [exact Hlet |]. split; [exact Hlen |]. split; [exact Hdig |].
  split; [apply cleaned_prefix_chars |].
  unfold clean_language_entry. rewrite Hs. reflexivity.
Qed.

Lemma C8_witness :
  search level_at (list_ascii_of_string "German - B1") = Some (9%nat, ("B"%char, ["1"%char])) /\
  is_level_letter "B"%char = true.
Proof.
  assert (H : search level_at (list_ascii_of_string "German - B1")
              = Some (9%nat, ("B"%char, ["1"%char]))) by (vm_compute; reflexivity).
  split; [exact H |].
  exact (proj1 (proj2 (proj2 C8_clean_language_entry) "German - B1" 9%nat "B"%char ["1"%char] H)).
Defined.

(** Counterexample to claim C8 as stated: the language name keeps its case,
    so ["English (B2)"] gives ["English B2"], not ["english B2"]. *)
Lemma C8_counterexample :
  clean_language_entry "English (B2)" <> ("english B2", Some "B2").
Proof. vm_compute. intros H. injection H. discriminate. Qed.

End NormalizerClaims.

(* ------------------------------------------------------------------ *)
(** ** Parser claims *)

Module ParserFacts.
Import Normalizer Parser.

(** The [PersonalInfo] call of [_parse_personal_info] passes [name=...]
    first, which the dataclass constructor rejects. *)
Lemma PersonalInfo_init_name_kwarg (v : pyval) (rest : list (string * pyval)) :
  PersonalInfo_init (("name", v) :: rest) =
  Err (TypeError "PersonalInfo.__init__() got an unexpected keyword argument 'name'").
Proof. reflexivity. Qed.

Lemma parse_personal_info_fails (doc : Document) :
  exists e, parse_personal_info doc = Err e.
Proof.
  unfold parse_personal_info.
  destruct (_ <? 3); [eexists; reflexivity |].
  destruct (extract_position_level _) as [level position_clean].
  destruct (tables doc) as [| about_table ts]; [eexists; reflexivity |].
  unfold bind.
  destruct (py_index about_table 0) as [row0 |]; [| eexists; reflexivity].
  destruct (py_index row0 0) as [about_text |]; [| eexists; reflexivity].
  rewrite PersonalInfo_init_name_kwarg. eexists; reflexivity.
Qed.

Lemma parse_project_row_cv_id (cells : list string) (cid name : string) (p : Project) :
  parse_project_row cells cid name = Ok p -> cv_id p = cid.
Proof.
  unfold parse_project_row. destruct cells as [| c0 [| c1 rest]]; try discriminate.
  intros H. injection H as <-. reflexivity.
Qed.

(** [InnoStandardParser.parse] raises on every input. *)
Lemma parse_always_fails (fs : FileSystem) (file_path : string) (now : Z) :
  exists e, parse fs file_path now = Err e.
Proof.
  unfold parse.
  destruct (check_file_exists fs file_path) as [[] | e]; cbn [bind]; [| eexists; reflexivity].
  unfold parse_body.
  destruct (match fs file_path with
            | Some r => r
            | None => Err (FileNotFoundError ("DOCX file not found: " ++ file_path))
            end) as [doc | e]; cbn [bind]; [| eexists; reflexivity].
  destruct (parse_personal_info_fails doc) as [e He]. rewrite He. eexists; reflexivity.
Qed.

End ParserFacts.

Module ParserClaims.
Import Normalizer Parser ParserFacts ParserSamples.

(** Claim C1 (code defect).  [InnoStandardParser.parse] never returns a
    [CV], whatever the file system, path and time: [_parse_personal_info]
    builds [PersonalInfo(name=...)], but the dataclass field is
    [candidate_name], so the constructor raises [TypeError], which [parse]
    re-raises as [ValueError]. *)
Theorem C1_parse_never_returns_a_cv :
  forall (fs : FileSystem) (file_path : string) (now : Z) (cv : CV),
  parse fs file_path now <> Ok cv.
Proof.
  intros fs file_path now cv. unfold parse.
  destruct (check_file_exists fs file_path); simpl; [| discriminate].
  unfold parse_body.
  destruct (match fs file_path with
            | Some r => r
            | None => Err (FileNotFoundError ("DOCX file not found: " ++ file_path))
            end) as [doc |]; simpl; [| discriminate].
  destruct (parse_personal_info_fails doc) as [e He]. rewrite He. simpl. discriminate.
Qed.

(** [_parse_projects] calls [parse_project_row] with the cells only, so
    every project it returns has [cv_id = ""], which is never a [cv_id] of
    the form [{name}_{timestamp}] that [parse] assigns to the CV. *)
Lemma projects_have_empty_cv_id :
  forall (doc : Document) (name : string) (now : Z),
  Forall (fun p => cv_id p = "" /\ cv_id p <> name ++ "_" ++ Z_to_string now)
         (parse_projects doc).
Proof.
  intros doc name now. apply Forall_forall. intros p Hin.
  assert (Hp : cv_id p = "").
  { unfold parse_projects in Hin.
    destruct (tables doc) as [| t1 [| t2 ts]]; try contradiction.
    apply in_flat_map in Hin as [row [_ Hrow]].
    destruct (parse_project_row row "" "") as [q |] eqn:E; [| contradiction].
    destruct Hrow as [<- | []].
    exact (parse_project_row_cv_id _ _ _ _ E). }
  split; [exact Hp |]. rewrite Hp. destruct name; discriminate.
Qed.


(** What [parse] does on that CV. *)
Lemma parse_jane_doe :
  parse jane_fs "jane_doe.docx" 1700000000 =
  Err (ValueError ("Error parsing DOCX file jane_doe.docx: PersonalInfo.__init__() "
                   ++ "got an unexpected keyword argument 'name'")).
Proof. vm_compute. reflexivity. Qed.

(** The sample CV has one project, and its [cv_id] is empty. *)
Lemma jane_doe_project_cv_ids :
  List.map cv_id (parse_projects jane_doe) = [""].
Proof. vm_compute. reflexivity. Qed.

End ParserClaims.

(* ------------------------------------------------------------------ *)
(** ** Vector-store managers *)

Module VectorDBFacts.
Import VectorDB FilterSpec.

(** Every result of the Qdrant formatter has [distance = 1.0 - score]. *)
Lemma qdrant_format_distance (resp : QueryResponse) (rs : list SearchResult) :
  qdrant_format_results resp = Ok rs ->
  Forall (fun r => sr_distance r = Some (PrimFloat.sub 1.0%float (sr_score r))) rs.
Proof.
  unfold qdrant_format_results.
  revert rs; induction resp as [| [field points] rest IH]; intros rs H.
  - injection H as <-. constructor.
  - destruct points as [| p ps]; [discriminate |].
    simpl in H.
    destruct ((fix go (rs0 : QueryResponse) : result (list SearchResult) :=
                 match rs0 with
                 | [] => Ok []
                 | (_, points) :: rest0 =>
                     p0 <- py_index points 0;;
                     tl <- go rest0;;
                     Ok (mkSearchResult (py_str (payload_get (sp_payload p0) "text_id"))
                           (payload_get (sp_payload p0) "document")
                           (payload_get (sp_payload p0) "metadata")
                           (sp_score p0)
                           (Some (PrimFloat.sub 1.0%float (sp_score p0))) :: tl)
                 end) rest) as [tl |] eqn:E; [| discriminate].
    injection H as <-. constructor; [reflexivity | exact (IH tl eq_refl)].
Qed.

(** A truthy [values] entry, as the translator coerces it. *)
Lemma field_values_eq (d : dict) (v : pyval) :
  dict_get d "values" = Some v -> truthy v = true ->
  field_values d = match v with VList l => l | _ => [v] end.
Proof.
  intros E T. unfold field_values. rewrite E.
  destruct v; simpl in T |- *; try discriminate T; try rewrite T; reflexivity.
Qed.

(** One iteration of the translator's loop. *)
Lemma build_conditions_step (field_name : string) (cfg : pyval) (rest : dict)
  (ms ss : list Filter_condition) :
  build_conditions ((field_name, cfg) :: rest) ms ss =
  build_conditions rest (ms ++ spec_must (field_name, cfg))%list
                        (ss ++ spec_should (field_name, cfg))%list.
Proof.
  destruct cfg as [| | | | | d]; simpl; rewrite ?app_nil_r; try reflexivity.
  unfold field_active, field_is_must.
  destruct (dict_get d "values") as [v |] eqn:Ev; simpl; rewrite ?app_nil_r; [| reflexivity].
  destruct (truthy v) eqn:Tv; simpl; rewrite ?app_nil_r; [| reflexivity].
  rewrite (field_values_eq d v Ev Tv).
  destruct (dict_get d "must") as [m |]; simpl; [destruct (truthy m)|]; simpl;
    rewrite ?app_nil_r; reflexivity.
Qed.

(** The translator's loop, with its accumulators, is the field-by-field
    translation. *)
Lemma build_conditions_spec (items : dict) (ms ss : list Filter_condition) :
  build_conditions items ms ss =
  ((ms ++ flat_map spec_must items)%list, (ss ++ flat_map spec_should items)%list).
Proof.
  revert ms ss; induction items as [| [field_name cfg] rest IH]; intros ms ss.
  - simpl. rewrite !app_nil_r. reflexivity.
  - rewrite build_conditions_step, IH. simpl. rewrite !app_assoc. reflexivity.
Qed.

Lemma build_filter_spec (filters : dict) :
  build_filter_from_format filters =
  filter_of (flat_map spec_must filters) (flat_map spec_should filters).
Proof.
  unfold build_filter_from_format. rewrite build_conditions_spec. reflexivity.
Qed.

End VectorDBFacts.

Module VectorDBClaims.
Import VectorDB FilterSpec VectorDBSamples VectorDBFacts.

(** Claim C3 (code defect).  The two backends disagree on [score]: Qdrant
    reports the cosine similarity as [score] and [1.0 - score] as
    [distance], while Chroma copies the query distance into both [score]
    and [distance].  On a Chroma query whose only hit has distance [0.25],
    [search] returns a result with [score = 0.25] and [distance = 0.25], so
    [distance <> 1 - score]; a Qdrant hit with similarity [0.75] is returned
    with [score = 0.75] and [distance = 0.25]. *)
Theorem C3_chroma_score_is_distance :
  snd (chroma_search chroma_online "cvs" (Some "python") None 10) =
    Ok [mkSearchResult "cv1_0" (VStr "Python developer") (VDict []) 0.25%float
                       (Some 0.25%float)]
  /\ Some 0.25%float <> Some (PrimFloat.sub 1.0%float 0.25%float)
  /\ snd (qdrant_search qdrant_online "cvs" (Some "python") None 10) =
    Ok [mkSearchResult "cv1_0" (VStr "Python developer") (VDict []) 0.75%float
                       (Some 0.25%float)].
Proof.
  split; [vm_compute; reflexivity |].
  split; [| vm_compute; reflexivity].
  intro H.
  apply (f_equal (fun o => match o with
                           | Some x => PrimFloat.eqb x 0.25%float
                           | None => false
                           end)) in H.
  vm_compute in H. discriminate H.
Qed.

(** Claim C4 (corrected).  [_build_filter_from_format] is the field-by-field
    translation of [FilterSpec]: fields are taken in order; a config that
    is not a mapping, or whose [values] entry is missing or falsy (an empty
    list, but also [0], [""], [False] or [None]), is skipped; any other
    non-list [values] becomes a one-element list; a truthy [must] (default
    [True]) gives one [MatchValue] condition per value on
    [metadata.<field>] in the [must] clause, otherwise one [MatchAny]
    condition over all values goes to the [should] clause.  The conditions
    are handed to [Filter], which validates them.  When no field
    contributes, the translator returns [None] and [filtered_search] calls
    [query_points] with no filter. *)
Theorem C4_filter_translation (filters : dict) :
  build_filter_from_format filters =
    filter_of (flat_map spec_must filters) (flat_map spec_should filters)
  /\ (flat_map spec_must filters = [] -> flat_map spec_should filters = [] ->
      build_filter_from_format filters = Ok None
      /\ forall (q : QdrantManager) (srv : QdrantServer) (name query : string)
                (limit : Z) (e : list float) (es : list (list float)),
         q_connected q = true -> q_client q = Some srv -> query <> "" ->
         get_embeddings (q_embedder q) [query] = Ok (e :: es) ->
         fst (qdrant_filtered_search q name query (VDict filters) limit)
           = [Embed [query]; QQueryPoints name None None]).
Proof.
  split; [apply build_filter_spec |].
  intros Hm Hs.
  assert (Hb : build_filter_from_format filters = Ok None)
    by (rewrite build_filter_spec, Hm, Hs; reflexivity).
  split; [exact Hb |].
  intros q srv name query limit e es Hc Hcl Hq He.
  unfold qdrant_filtered_search. rewrite Hc. simpl.
  apply String.eqb_neq in Hq. rewrite Hq.
  unfold embed, invoke. rewrite He. simpl.
  rewrite Hb. simpl. rewrite Hcl. simpl.
  destruct (qs_query_points srv name None e None) as [resp |]; simpl; [| reflexivity].
  destruct (qdrant_format_results resp); reflexivity.
Qed.

Lemma C4_witness :
  flat_map spec_must inactive_filters = [] /\ flat_map spec_should inactive_filters = [] /\
  fst (qdrant_filtered_search qdrant_online "cvs" "python" (VDict inactive_filters) 10)
    = [Embed ["python"]; QQueryPoints "cvs" None None].
Proof.
  assert (Hm : flat_map spec_must inactive_filters = []) by reflexivity.
  assert (Hs : flat_map spec_should inactive_filters = []) by reflexivity.
  split; [exact Hm |]. split; [exact Hs |].
  apply (proj2 (proj2 (C4_filter_translation inactive_filters) Hm Hs)
           qdrant_online qdrant_sample_server "cvs" "python" 10 [1.0%float] []);
    [reflexivity | reflexivity | discriminate | reflexivity].
Defined.

(** The claim coerces the scalar [0] to [[0]], giving a [should] condition;
    the code skips the falsy entry and returns no filter. *)
Lemma C4_counterexample :
  build_filter_from_format level_should_zero = Ok None /\
  build_filter_from_format level_should_zero <>
    Ok (Some (mkQFilter None (Some [MatchAny "metadata.level" [VInt 0]]))).
Proof.
  split; [vm_compute; reflexivity |].
  vm_compute. intro H. injection H as H. discriminate H.
Qed.

(** Claim C5 (corrected).  A disconnected manager makes no backend call
    and returns the operation's safe default for [list_collections],
    [get_collection_info], [create_collection], [delete_collection],
    [insert_documents], [search] and, on Qdrant, [filtered_search].
    [ChromaManager] has no [filtered_search]: calling it raises
    [AttributeError], connected or not. *)
Theorem C5_disconnected_defaults (mgr : Manager) (meth : Method) :
  is_connected mgr = false ->
  (forall m n qu f l, mgr = Chroma m -> meth <> MFilteredSearch n qu f l) ->
  call_method mgr meth = ([], Ok (safe_default meth)).
Proof.
  intros Hc Hm.
  destruct mgr as [q | m]; simpl in Hc.
  - destruct meth; simpl;
      unfold qdrant_list_collections, qdrant_get_collection_info,
        qdrant_create_collection, qdrant_delete_collection,
        qdrant_insert_documents, qdrant_search, qdrant_filtered_search;
      rewrite Hc; reflexivity.
  - destruct meth as [| | | | | | n qu f l];
      [.. | exfalso; exact (Hm m n qu f l eq_refl eq_refl)];
      simpl;
      unfold chroma_list_collections, chroma_get_collection_info,
        chroma_create_collection, chroma_delete_collection,
        chroma_insert_documents, chroma_search;
      rewrite Hc; reflexivity.
Qed.

Lemma C5_witness :
  is_connected (Qdrant qdrant_offline) = false /\
  call_method (Qdrant qdrant_offline) (MFilteredSearch "cvs" "python" (VDict []) 10)
    = ([], Ok (RResults [])).
Proof.
  split; [reflexivity |].
  apply (C5_disconnected_defaults (Qdrant qdrant_offline)
           (MFilteredSearch "cvs" "python" (VDict []) 10));
    [reflexivity | intros m n qu f l H; discriminate H].
Defined.

(** A disconnected [ChromaManager] throws on [filtered_search]. *)
Lemma C5_counterexample :
  is_connected (Chroma chroma_offline) = false /\
  call_method (Chroma chroma_offline) (MFilteredSearch "cvs" "python" (VDict []) 10)
    <> ([], Ok (RResults [])).
Proof.
  split; [reflexivity |].
  simpl. intro H. discriminate H.
Qed.

End VectorDBClaims.

(* ------------------------------------------------------------------ *)
(** ** Further properties of the code *)

Module TextFacts.
Import Chunker.

Lemma firstn_add_skipn {A} (a b : nat) (l : list A) :
  firstn (a + b) l = (firstn a l ++ firstn b (skipn a l))%list.
Proof.
  revert l; induction a as [| a IH]; intros l; [reflexivity |].
  destruct l as [| x l]; simpl; [destruct b; reflexivity |].
  rewrite IH. reflexivity.
Qed.

Lemma firstn_min_eq {A} (k k' : nat) (l : list A) :
  Nat.min k (List.length l) = Nat.min k' (List.length l) -> firstn k l = firstn k' l.
Proof.
  revert k k'; induction l as [| x l IH]; intros k k' H; [rewrite !firstn_nil; reflexivity |].
  destruct k, k'; simpl in H; try discriminate; [reflexivity |].
  simpl. f_equal. apply IH. lia.
Qed.

Lemma py_slice_nonneg {A} (l : list A) (i j : Z) :
  0 <= i -> i <= j ->
  py_slice l i j = firstn (Z.to_nat (j - i)) (skipn (Z.to_nat i) l).
Proof.
  intros Hi Hij. unfold py_slice.
  replace (i <? 0) with false by (symmetry; apply Z.ltb_ge; lia).
  replace (j <? 0) with false by (symmetry; apply Z.ltb_ge; lia).
  destruct (Z.le_gt_cases (Z.of_nat (List.length l)) i) as [Hn | Hn].
  - rewrite !skipn_all2 by lia. rewrite !firstn_nil. reflexivity.
  - replace (Z.min i (Z.of_nat (List.length l))) with i by lia.
    apply firstn_min_eq. rewrite length_skipn. lia.
Qed.

Lemma py_range_pos (n step : Z) :
  0 < step ->
  py_range 0 n step =
  Ok (List.map (fun k => Z.of_nat k * step) (seq 0 (Z.to_nat ((n + step - 1) / step)))).
Proof.
  intros Hs. unfold py_range.
  replace (step =? 0) with false by (symmetry; apply Z.eqb_neq; lia).
  replace (step >? 0) with true by (symmetry; apply Z.gtb_lt; lia).
  rewrite Z.sub_0_r. reflexivity.
Qed.

Lemma concat_windows {A} (s m : nat) (l : list A) :
  List.concat (List.map (fun k => firstn s (skipn (k * s) l)) (seq 0 m)) = firstn (m * s) l.
Proof.
  induction m as [| m IH]; [reflexivity |].
  rewrite seq_S, map_app, concat_app, IH. cbn [List.map List.concat].
  rewrite app_nil_r, Nat.mul_succ_l, firstn_add_skipn. reflexivity.
Qed.

Lemma ceil_div_cover (n s : Z) :
  0 < s -> 0 <= n -> n <= (n + s - 1) / s * s.
Proof.
  intros Hs Hn.
  pose proof (Z.div_mod (n + s - 1) s ltac:(lia)).
  pose proof (Z.mod_pos_bound (n + s - 1) s Hs). nia.
Qed.

Lemma string_of_list_ascii_app (a b : list ascii) :
  string_of_list_ascii (a ++ b) = string_of_list_ascii a ++ string_of_list_ascii b.
Proof. induction a as [| c a IH]; simpl; [reflexivity | rewrite IH; reflexivity]. Qed.

Lemma join_empty_concat (ls : list (list ascii)) :
  join "" (List.map string_of_list_ascii ls) = string_of_list_ascii (List.concat ls).
Proof.
  induction ls as [| x ls IH]; [reflexivity |].
  simpl. destruct ls as [| y ls].
  - simpl. rewrite app_nil_r. reflexivity.
  - change (join "" (List.map string_of_list_ascii (x :: y :: ls)))
      with (string_of_list_ascii x ++ "" ++ join "" (List.map string_of_list_ascii (y :: ls))).
    rewrite IH, string_of_list_ascii_app. reflexivity.
Qed.

Lemma length_string_of_list_ascii (l : list ascii) :
  String.length (string_of_list_ascii l) = List.length l.
Proof. induction l; simpl; congruence. Qed.

Lemma length_list_ascii_of_string (s : string) :
  List.length (list_ascii_of_string s) = String.length s.
Proof. induction s; simpl; congruence. Qed.

Lemma list_ascii_of_string_app (a b : string) :
  list_ascii_of_string (a ++ b) = (list_ascii_of_string a ++ list_ascii_of_string b)%list.
Proof. induction a as [| c a IH]; simpl; [reflexivity | rewrite IH; reflexivity]. Qed.

Lemma split_ws_aux_no_space (l1 rest cur : list ascii) :
  no_space l1 ->
  split_ws_aux (l1 ++ rest) cur = split_ws_aux rest (rev l1 ++ cur).
Proof.
  revert cur; induction l1 as [| c l1 IH]; intros cur H; [reflexivity |].
  inversion H as [| ? ? Hc Hl]; subst. simpl. rewrite Hc, IH by exact Hl.
  rewrite <- app_assoc. reflexivity.
Qed.

Lemma split_ws_aux_good (l cur : list ascii) :
  no_space cur -> Forall good_word (split_ws_aux l cur).
Proof.
  revert cur; induction l as [| c l IH]; intros cur Hcur; simpl.
  - destruct cur as [| x cur]; constructor; [| constructor].
    unfold good_word. rewrite list_ascii_of_string_of_list_ascii. split.
    + intro E. apply (f_equal (@List.length ascii)) in E.
      rewrite length_rev in E. discriminate.
    + apply Forall_rev. exact Hcur.
  - destruct (is_space c) eqn:Hc.
    + destruct cur as [| x cur]; [apply IH; constructor |].
      constructor; [| apply IH; constructor].
      unfold good_word. rewrite list_ascii_of_string_of_list_ascii. split.
      * intro E. apply (f_equal (@List.length ascii)) in E.
        rewrite length_rev in E. discriminate.
      * apply Forall_rev. exact Hcur.
    + apply IH. constructor; assumption.
Qed.

Lemma py_split_ws_good (s : string) : Forall good_word (py_split_ws s).
Proof. apply split_ws_aux_good. constructor. Qed.

Lemma split_join (ws : list string) :
  Forall good_word ws -> py_split_ws (join " " ws) = ws.
Proof.
  induction ws as [| w ws IH]; intros H; [reflexivity |].
  inversion H as [| ? ? [Hne Hns] Hws]; subst.
  unfold py_split_ws.
  destruct ws as [| w2 ws].
  - simpl join. rewrite <- (app_nil_r (list_ascii_of_string w)).
    rewrite split_ws_aux_no_space by exact Hns. simpl. rewrite app_nil_r.
    destruct (rev (list_ascii_of_string w)) eqn:E.
    + apply (f_equal (@rev ascii)) in E. rewrite rev_involutive in E. contradiction.
    + rewrite <- E, rev_involutive, string_of_list_ascii_of_string. reflexivity.
  - change (join " " (w :: w2 :: ws)) with (w ++ " " ++ join " " (w2 :: ws)).
    rewrite !list_ascii_of_string_app.
    rewrite split_ws_aux_no_space by exact Hns. simpl. rewrite app_nil_r.
    destruct (rev (list_ascii_of_string w)) eqn:E.
    + apply (f_equal (@rev ascii)) in E. rewrite rev_involutive in E. contradiction.
    + rewrite <- E, rev_involutive, string_of_list_ascii_of_string.
      f_equal. exact (IH Hws).
Qed.

Lemma Forall_firstn' {A} (P : A -> Prop) (n : nat) (l : list A) :
  Forall P l -> Forall P (firstn n l).
Proof.
  intros H. rewrite <- (firstn_skipn n l) in H. apply Forall_app in H. tauto.
Qed.

Lemma Forall_skipn' {A} (P : A -> Prop) (n : nat) (l : list A) :
  Forall P l -> Forall P (skipn n l).
Proof.
  intros H. rewrite <- (firstn_skipn n l) in H. apply Forall_app in H. tauto.
Qed.

Lemma windows_words (fuel step : nat) (ws : list string) :
  (0 < step)%nat -> (List.length ws <= fuel)%nat -> Forall good_word ws ->
  List.concat (List.map py_split_ws (windows fuel step ws)) = ws /\
  Forall (fun p => (List.length (py_split_ws p) <= step)%nat) (windows fuel step ws).
Proof.
  revert ws; induction fuel as [| f IH]; intros ws Hs Hl Hg.
  - destruct ws; [split; [reflexivity | constructor] | simpl in Hl; lia].
  - destruct ws as [| w ws']; [split; [reflexivity | constructor] |].
    cbn [windows].
    destruct (IH (skipn step (w :: ws')) Hs) as [IHc IHf].
    + rewrite length_skipn. cbn [List.length] in Hl |- *. lia.
    + apply Forall_skipn'. exact Hg.
    + cbn [List.map List.concat].
      rewrite split_join by (apply Forall_firstn'; exact Hg).
      split.
      * rewrite IHc. apply firstn_skipn.
      * constructor; [rewrite split_join by (apply Forall_firstn'; exact Hg); apply firstn_le_length | exact IHf].
Qed.

Lemma is_empty_app_r (a b : string) : is_empty b = false -> is_empty (a ++ b) = false.
Proof. destruct a; simpl; auto. Qed.

Lemma good_word_nonempty (w : string) : good_word w -> is_empty w = false.
Proof. intros [H _]. destruct w; [contradiction | reflexivity]. Qed.

Lemma join_cons_nonempty (sep w : string) (l : list string) :
  is_empty w = false -> is_empty (join sep (w :: l)) = false.
Proof. intros H. destruct w; [discriminate |]. destruct l; reflexivity. Qed.

Lemma windows_nonempty (fuel step : nat) (ws : list string) :
  (0 < step)%nat -> Forall good_word ws ->
  Forall (fun t => is_empty t = false) (windows fuel step ws).
Proof.
  revert ws; induction fuel as [| f IH]; intros ws Hs Hg; [constructor |].
  destruct ws as [| w ws']; [constructor |].
  cbn [windows]. constructor.
  - destruct step as [| k]; [lia |]. cbn [firstn].
    apply join_cons_nonempty, good_word_nonempty. inversion Hg; assumption.
  - apply IH; [exact Hs | apply Forall_skipn'; exact Hg].
Qed.

Lemma lower_char_idem (c : ascii) : lower_char (lower_char c) = lower_char c.
Proof. destruct c as [[] [] [] [] [] [] [] []]; reflexivity. Qed.

Lemma is_space_lower_char (c : ascii) : is_space (lower_char c) = is_space c.
Proof. destruct c as [[] [] [] [] [] [] [] []]; reflexivity. Qed.

Lemma list_ascii_of_py_lower (s : string) :
  list_ascii_of_string (py_lower s) = List.map lower_char (list_ascii_of_string s).
Proof. unfold py_lower, str_map. apply list_ascii_of_string_of_list_ascii. Qed.

Lemma py_lower_app (a b : string) : py_lower (a ++ b) = py_lower a ++ py_lower b.
Proof. induction a as [| c a IH]; simpl; [reflexivity |]. unfold py_lower, str_map in *. simpl. rewrite IH. reflexivity. Qed.

Lemma py_lower_join (ws : list string) :
  py_lower (join " " ws) = join " " (List.map py_lower ws).
Proof.
  induction ws as [| w [| w2 ws] IH]; [reflexivity | reflexivity |].
  change (join " " (w :: w2 :: ws)) with (w ++ " " ++ join " " (w2 :: ws)).
  rewrite !py_lower_app, IH. reflexivity.
Qed.

Lemma split_ws_aux_lower (l cur : list ascii) :
  split_ws_aux (List.map lower_char l) (List.map lower_char cur) =
  List.map py_lower (split_ws_aux l cur).
Proof.
  revert cur. induction l as [| c l IH]; intros cur; cbn [List.map split_ws_aux].
  - destruct cur; [reflexivity |]. cbn [List.map].
    unfold py_lower, str_map. rewrite list_ascii_of_string_of_list_ascii, map_rev. reflexivity.
  - rewrite is_space_lower_char. destruct (is_space c).
    + destruct cur; [apply (IH []) |]. cbn [List.map]. rewrite <- (IH []). cbn [List.map].
      f_equal. unfold py_lower, str_map. rewrite list_ascii_of_string_of_list_ascii, map_rev. reflexivity.
    + apply (IH (c :: cur)).
Qed.

Lemma py_split_ws_lower (s : string) :
  py_split_ws (py_lower s) = List.map py_lower (py_split_ws s).
Proof. unfold py_split_ws. rewrite list_ascii_of_py_lower. apply (split_ws_aux_lower _ []). Qed.

Lemma py_lower_idem (s : string) : py_lower (py_lower s) = py_lower s.
Proof.
  unfold py_lower at 1. unfold str_map at 1.
  rewrite list_ascii_of_py_lower, map_map. unfold py_lower, str_map.
  f_equal. apply map_ext. apply lower_char_idem.
Qed.

Lemma lowered_words_fixed (s : string) :
  List.map py_lower (py_split_ws (py_lower s)) = py_split_ws (py_lower s).
Proof. rewrite py_split_ws_lower, map_map. apply map_ext. apply py_lower_idem. Qed.

Lemma normalize_idem (text : string) :
  normalize (normalize text) = normalize text.
Proof.
  destruct (is_empty text) eqn:Ht.
  - destruct text; [reflexivity | discriminate].
  - unfold normalize. rewrite Ht. destruct (is_empty (join " " _)) eqn:He.
    + destruct (join " " (py_split_ws (py_lower text))); [reflexivity | discriminate].
    + rewrite py_lower_join, lowered_words_fixed, split_join by apply py_split_ws_good.
      reflexivity.
Qed.

End TextFacts.

Module ChunkerExtras.
Import Chunker TextFacts.

Lemma fixed_size_texts (self : SimpleChunker) (txt : string) :
  0 <= overlap self < chunk_size self ->
  chunk_by_fixed_size self txt =
  Ok (texts_dict
        (List.map (fun k => string_of_list_ascii
                              (firstn (Z.to_nat (chunk_size self))
                                 (skipn (k * Z.to_nat (chunk_size self - overlap self))
                                    (list_ascii_of_string txt))))
                  (seq 0 (Z.to_nat ((Z.of_nat (String.length txt)
                                     + (chunk_size self - overlap self) - 1)
                                    / (chunk_size self - overlap self)))))).
Proof.
  intros H. unfold chunk_by_fixed_size.
  rewrite py_range_pos by lia. simpl bind.
  f_equal. f_equal. rewrite map_map. apply map_ext. intros k.
  unfold str_slice. rewrite py_slice_nonneg by nia.
  f_equal. f_equal; [f_equal; lia |].
  f_equal. rewrite Z2Nat.inj_mul, Nat2Z.id by lia. reflexivity.
Qed.

(** [SimpleChunker.chunk_by_fixed_size] with [0 <= overlap < chunk_size]
    never raises; it returns [ceil(len(text) / (chunk_size - overlap))]
    texts, none longer than [chunk_size]; with [overlap = 0] the texts
    concatenate back to the input. *)
Theorem chunk_by_fixed_size_pieces (self : SimpleChunker) (txt : string) :
  0 <= overlap self < chunk_size self ->
  exists d, chunk_by_fixed_size self txt = Ok d /\
    Z.of_nat (List.length (texts d)) =
      (Z.of_nat (String.length txt) + (chunk_size self - overlap self) - 1)
      / (chunk_size self - overlap self) /\
    Forall (fun t => Z.of_nat (String.length t) <= chunk_size self) (texts d) /\
    (overlap self = 0 -> join "" (texts d) = txt).
Proof.
  intros H. rewrite fixed_size_texts by exact H.
  eexists. split; [reflexivity |]. cbn [texts texts_dict].
  split; [| split].
  - rewrite length_map, length_seq. apply Z2Nat.id.
    apply Z.div_pos; lia.
  - apply Forall_map, Forall_forall. intros k _.
    rewrite length_string_of_list_ascii.
    pose proof (firstn_le_length (Z.to_nat (chunk_size self))
                  (skipn (k * Z.to_nat (chunk_size self - overlap self))
                     (list_ascii_of_string txt))). lia.
  - intros H0. rewrite H0 in *. rewrite Z.sub_0_r.
    rewrite <- (map_map (fun k => firstn (Z.to_nat (chunk_size self))
                                    (skipn (k * Z.to_nat (chunk_size self))
                                       (list_ascii_of_string txt)))
                        string_of_list_ascii).
    rewrite join_empty_concat, concat_windows.
    rewrite firstn_all2; [apply string_of_list_ascii_of_string |].
    rewrite length_list_ascii_of_string.
    pose proof (ceil_div_cover (Z.of_nat (String.length txt)) (chunk_size self)
                  ltac:(lia) ltac:(lia)).
    apply Nat2Z.inj_le. rewrite Nat2Z.inj_mul, !Z2Nat.id; [lia | lia |].
    apply Z.div_pos; lia.
Qed.

(** In [chunk_by_fixed_size] with [0 <= overlap < chunk_size], consecutive
    texts overlap: what follows the first [chunk_size - overlap] characters
    of a text is the first [overlap] characters of the next one. *)
Theorem chunk_by_fixed_size_overlap (self : SimpleChunker) (txt : string)
  (d : TextsDict) (k : nat) (t1 t2 : string) :
  0 <= overlap self < chunk_size self ->
  chunk_by_fixed_size self txt = Ok d ->
  nth_error (texts d) k = Some t1 -> nth_error (texts d) (S k) = Some t2 ->
  skipn (Z.to_nat (chunk_size self - overlap self)) (list_ascii_of_string t1) =
  firstn (Z.to_nat (overlap self)) (list_ascii_of_string t2).
Proof.
  intros H Hd H1 H2. rewrite fixed_size_texts in Hd by exact H.
  injection Hd as <-. cbn [texts texts_dict] in H1, H2.
  rewrite nth_error_map in H1, H2.
  destruct (nth_error (seq 0 _) k) as [k1 |] eqn:E1; [| discriminate].
  destruct (nth_error (seq 0 _) (S k)) as [k2 |] eqn:E2; [| discriminate].
  rewrite nth_error_seq in E1, E2.
  destruct (k <? _)%nat; [| discriminate]. injection E1 as <-.
  destruct (S k <? _)%nat; [| discriminate]. injection E2 as <-.
  injection H1 as <-. injection H2 as <-.
  rewrite !list_ascii_of_string_of_list_ascii.
  set (s := Z.to_nat (chunk_size self - overlap self)).
  set (L := list_ascii_of_string txt).
  rewrite skipn_firstn_comm, skipn_skipn, firstn_firstn.
  replace (s + k * s)%nat with (S k * s)%nat by lia.
  f_equal. unfold s. lia.
Qed.

(** [SimpleChunker._split_long_sentence] with [chunk_size // 10 > 0]:
    the words of the pieces, in order, are the words of the sentence, and no
    piece has more than [chunk_size // 10] words. *)
Theorem split_long_sentence_words (self : SimpleChunker) (sentence : string)
  (pieces : list string) :
  0 < chunk_size self / 10 ->
  split_long_sentence self sentence = Ok pieces ->
  List.concat (List.map py_split_ws pieces) = py_split_ws sentence /\
  Forall (fun p => Z.of_nat (List.length (py_split_ws p)) <= chunk_size self / 10) pieces.
Proof.
  intros Hs H. unfold split_long_sentence in H.
  replace (chunk_size self / 10 =? 0) with false in H by (symmetry; apply Z.eqb_neq; lia).
  replace (chunk_size self / 10 <? 0) with false in H by (symmetry; apply Z.ltb_ge; lia).
  injection H as <-.
  destruct (windows_words (List.length (py_split_ws sentence)) (Z.to_nat (chunk_size self / 10))
              (py_split_ws sentence) ltac:(lia) (le_n _) (py_split_ws_good sentence))
    as [Hc Hf].
  split; [exact Hc |].
  eapply Forall_impl; [| exact Hf]. intros p Hp. simpl in Hp. lia.
Qed.

Lemma chunk_by_words_texts (self : SimpleChunker) (txt : string) (wpc : Z) :
  0 < wpc - overlap self / 5 -> 0 <= wpc ->
  chunk_by_words self txt wpc =
  Ok (texts_dict
        (List.map (fun k => join " " (firstn (Z.to_nat wpc)
                                    (skipn (k * Z.to_nat (wpc - overlap self / 5))
                                       (py_split_ws txt))))
                  (seq 0 (Z.to_nat ((Z.of_nat (List.length (py_split_ws txt))
                                     + (wpc - overlap self / 5) - 1)
                                    / (wpc - overlap self / 5)))))).
Proof.
  intros Hs Hw. unfold chunk_by_words.
  rewrite py_range_pos by lia. simpl bind.
  f_equal. f_equal. rewrite map_map. apply map_ext. intros k.
  rewrite py_slice_nonneg by nia.
  f_equal. f_equal; [f_equal; lia |].
  f_equal. rewrite Z2Nat.inj_mul, Nat2Z.id by lia. reflexivity.
Qed.

(** [SimpleChunker.chunk_by_words] with a positive step
    [words_per_chunk - overlap // 5] and [words_per_chunk >= 0] never raises;
    it returns [ceil(len(words) / step)] texts of at most [words_per_chunk]
    words each, and when [overlap // 5 = 0] their words, in order, are the
    words of the text. *)
Theorem chunk_by_words_chunks (self : SimpleChunker) (txt : string) (wpc : Z) :
  0 < wpc - overlap self / 5 -> 0 <= wpc ->
  exists d, chunk_by_words self txt wpc = Ok d /\
    Z.of_nat (List.length (texts d)) =
      (Z.of_nat (List.length (py_split_ws txt)) + (wpc - overlap self / 5) - 1)
      / (wpc - overlap self / 5) /\
    Forall (fun t => Z.of_nat (List.length (py_split_ws t)) <= wpc) (texts d) /\
    (overlap self / 5 = 0 -> List.concat (List.map py_split_ws (texts d)) = py_split_ws txt).
Proof.
  intros Hs Hw. rewrite chunk_by_words_texts by assumption.
  eexists. split; [reflexivity |]. cbn [texts texts_dict].
  pose proof (py_split_ws_good txt) as Hg.
  split; [| split].
  - rewrite length_map, length_seq. apply Z2Nat.id. apply Z.div_pos; lia.
  - apply Forall_map, Forall_forall. intros k _.
    rewrite split_join by (apply Forall_firstn', Forall_skipn'; exact Hg).
    pose proof (firstn_le_length (Z.to_nat wpc)
                  (skipn (k * Z.to_nat (wpc - overlap self / 5)) (py_split_ws txt))). lia.
  - intros H0. rewrite H0 in *. rewrite Z.sub_0_r in *.
    rewrite map_map.
    rewrite (map_ext_in _ (fun k => firstn (Z.to_nat wpc) (skipn (k * Z.to_nat wpc)
                                                            (py_split_ws txt))))
      by (intros k _; apply split_join, Forall_firstn', Forall_skipn'; exact Hg).
    rewrite concat_windows, firstn_all2; [reflexivity |].
    pose proof (ceil_div_cover (Z.of_nat (List.length (py_split_ws txt))) wpc
                  ltac:(lia) ltac:(lia)).
    apply Nat2Z.inj_le. rewrite Nat2Z.inj_mul, !Z2Nat.id; [lia | lia |].
    apply Z.div_pos; lia.
Qed.

Lemma split_long_sentence_ok (self : SimpleChunker) (sentence : string) :
  chunk_size self / 10 <> 0 ->
  exists pieces, split_long_sentence self sentence = Ok pieces /\
                 Forall (fun t => is_empty t = false) pieces.
Proof.
  intros H. unfold split_long_sentence.
  replace (chunk_size self / 10 =? 0) with false by (symmetry; apply Z.eqb_neq; exact H).
  destruct (chunk_size self / 10 <? 0) eqn:Hlt.
  - exists []. split; [reflexivity | constructor].
  - eexists. split; [reflexivity |].
    apply windows_nonempty; [apply Z.ltb_ge in Hlt; lia | apply py_split_ws_good].
Qed.

Lemma sentence_loop_ok (self : SimpleChunker) (ss texts : list string) (cur : string) :
  chunk_size self / 10 <> 0 ->
  Forall (fun t => is_empty t = false) texts ->
  exists texts' cur', sentence_loop self ss texts cur = Ok (texts', cur') /\
                      Forall (fun t => is_empty t = false) texts'.
Proof.
  intros Hs. revert texts cur. induction ss as [| s ss IH]; intros texts cur Ht.
  - exists texts, cur. split; [reflexivity | exact Ht].
  - cbn [sentence_loop].
    destruct (_ >? _); [destruct (negb (is_empty cur)) eqn:He |].
    + apply IH. apply Forall_app. split; [exact Ht |].
      constructor; [destruct (is_empty cur); [discriminate | reflexivity] | constructor].
    + destruct (split_long_sentence_ok self s Hs) as (pieces & -> & Hp). simpl bind.
      apply IH. apply Forall_app. split; assumption.
    + apply IH. exact Ht.
Qed.

(** [SimpleChunker.chunk_by_sentences] with [chunk_size // 10 <> 0]
    never raises, and no chunk it returns has an empty text. *)
Theorem chunk_by_sentences_nonempty_texts (self : SimpleChunker) (txt : string)
  (meta : dict) (fresh : nat -> string) :
  chunk_size self / 10 <> 0 ->
  exists chunks, chunk_by_sentences self txt meta fresh = Ok chunks /\
                 Forall (fun c => text c <> "") chunks.
Proof.
  intros Hs. unfold chunk_by_sentences, sentence_texts.
  destruct (sentence_loop_ok self
              (List.filter (fun s => negb (is_empty s)) (List.map py_strip (split_sentences txt)))
              [] "" Hs (Forall_nil _)) as (texts & cur & -> & Ht).
  simpl bind. eexists. split; [reflexivity |].
  assert (Hall : Forall (fun t => is_empty t = false)
                   (if is_empty cur then texts else (texts ++ [cur])%list)).
  { destruct (is_empty cur) eqn:He; [exact Ht |].
    apply Forall_app. split; [exact Ht | constructor; [exact He | constructor]]. }
  unfold wrap_chunks. generalize (List.length (if is_empty cur then texts else (texts ++ [cur])%list)) as total.
  generalize 0%nat.
  induction Hall as [| t l Hne _ IHl]; intros i; simpl; constructor.
  - simpl. intros ->. discriminate.
  - apply IHl.
Qed.

Lemma sentence_loop_started_ok (self : SimpleChunker) (ss texts : list string) (cur : string) :
  is_empty cur = false ->
  exists r, sentence_loop self ss texts cur = Ok r.
Proof.
  revert texts cur. induction ss as [| s ss IH]; intros texts cur Hc.
  - eexists; reflexivity.
  - cbn [sentence_loop]. rewrite Hc. cbn [negb].
    destruct (_ >? _); apply IH; apply is_empty_app_r, is_empty_app_r; reflexivity.
Qed.

(** [SimpleChunker.chunk_by_sentences] with [chunk_size // 10 = 0]
    (that is [0 <= chunk_size < 10]) raises exactly when the first
    non-blank sentence is longer than [chunk_size], and then raises
    [ValueError("range() arg 3 must not be zero")]. *)
Theorem chunk_by_sentences_error_small_size (self : SimpleChunker) (txt : string)
  (meta : dict) (fresh : nat -> string) (e : py_exn) :
  chunk_size self / 10 = 0 ->
  chunk_by_sentences self txt meta fresh = Err e <->
  e = ValueError "range() arg 3 must not be zero" /\
  exists s rest,
    List.filter (fun s => negb (is_empty s)) (List.map py_strip (split_sentences txt))
      = s :: rest /\
    chunk_size self < Z.of_nat (String.length s).
Proof.
  intros Hs. unfold chunk_by_sentences, sentence_texts.
  destruct (List.filter _ _) as [| s rest] eqn:Hss.
  - simpl. split; [discriminate | intros (_ & s & rest & H & _); discriminate].
  - cbn [sentence_loop String.length Z.of_nat]. rewrite Z.add_0_l.
    destruct (Z.of_nat (String.length s) >? chunk_size self) eqn:Hgt.
    + cbn [is_empty negb]. unfold split_long_sentence. rewrite Hs. simpl.
      split.
      * intros H. injection H as <-. split; [reflexivity |].
        exists s, rest. split; [reflexivity | apply Z.gtb_lt in Hgt; lia].
      * intros [-> _]. reflexivity.
    + destruct (sentence_loop_started_ok self rest [] ("" ++ s ++ ". ")
                  (is_empty_app_r _ _ (is_empty_app_r s ". " eq_refl))) as [[ts c] ->].
      simpl. split; [discriminate |].
      intros (_ & s' & rest' & H & Hlt). injection H as <- <-.
      rewrite Z.gtb_ltb in Hgt. apply Z.ltb_ge in Hgt. lia.
Qed.

Lemma chunk_by_fixed_size_pieces_witness :
  0 <= overlap (mkSimpleChunker 4 0) < chunk_size (mkSimpleChunker 4 0) /\
  exists d, chunk_by_fixed_size (mkSimpleChunker 4 0) "abcdefghij" = Ok d /\
            join "" (texts d) = "abcdefghij".
Proof.
  assert (H : 0 <= overlap (mkSimpleChunker 4 0) < chunk_size (mkSimpleChunker 4 0))
    by (cbn; lia).
  split; [exact H |].
  destruct (chunk_by_fixed_size_pieces (mkSimpleChunker 4 0) "abcdefghij" H)
    as (d & Hd & _ & _ & Hj).
  exists d. split; [exact Hd | apply Hj; reflexivity].
Defined.

Lemma chunk_by_fixed_size_overlap_witness :
  0 <= overlap (mkSimpleChunker 4 1) < chunk_size (mkSimpleChunker 4 1) /\
  chunk_by_fixed_size (mkSimpleChunker 4 1) "abcdefghij"
    = Ok (texts_dict ["abcd"; "defg"; "ghij"; "j"]) /\
  skipn 3 (list_ascii_of_string "abcd") = firstn 1 (list_ascii_of_string "defg").
Proof.
  assert (H : 0 <= overlap (mkSimpleChunker 4 1) < chunk_size (mkSimpleChunker 4 1))
    by (cbn; lia).
  assert (Hd : chunk_by_fixed_size (mkSimpleChunker 4 1) "abcdefghij"
                 = Ok (texts_dict ["abcd"; "defg"; "ghij"; "j"])) by (vm_compute; reflexivity).
  split; [exact H | split; [exact Hd |]].
  exact (chunk_by_fixed_size_overlap (mkSimpleChunker 4 1) "abcdefghij"
           (texts_dict ["abcd"; "defg"; "ghij"; "j"]) 0 "abcd" "defg" H Hd eq_refl eq_refl).
Defined.

Lemma split_long_sentence_words_witness :
  0 < chunk_size (mkSimpleChunker 20 0) / 10 /\
  split_long_sentence (mkSimpleChunker 20 0) "a b c d e" = Ok ["a b"; "c d"; "e"] /\
  List.concat (List.map py_split_ws ["a b"; "c d"; "e"]) = py_split_ws "a b c d e".
Proof.
  assert (H : 0 < chunk_size (mkSimpleChunker 20 0) / 10) by reflexivity.
  assert (Hs : split_long_sentence (mkSimpleChunker 20 0) "a b c d e" = Ok ["a b"; "c d"; "e"])
    by (vm_compute; reflexivity).
  split; [exact H | split; [exact Hs |]].
  exact (proj1 (split_long_sentence_words (mkSimpleChunker 20 0) "a b c d e"
                  ["a b"; "c d"; "e"] H Hs)).
Defined.

Lemma chunk_by_words_chunks_witness :
  (0 < 2 - overlap (mkSimpleChunker 100 0) / 5 /\ 0 <= 2) /\
  exists d, chunk_by_words (mkSimpleChunker 100 0) "a b  c d e" 2 = Ok d /\
            List.concat (List.map py_split_ws (texts d)) = py_split_ws "a b  c d e".
Proof.
  assert (H1 : 0 < 2 - overlap (mkSimpleChunker 100 0) / 5) by reflexivity.
  assert (H2 : 0 <= 2) by lia.
  split; [split; assumption |].
  destruct (chunk_by_words_chunks (mkSimpleChunker 100 0) "a b  c d e" 2 H1 H2)
    as (d & Hd & _ & _ & Hw).
  exists d. split; [exact Hd | apply Hw; reflexivity].
Defined.

Lemma chunk_by_sentences_nonempty_texts_witness :
  chunk_size (mkSimpleChunker 20 0) / 10 <> 0 /\
  exists chunks,
    chunk_by_sentences (mkSimpleChunker 20 0) "Data scientist. Ten years of work."
      [("CV_id", VStr "jane_1")] (fun _ => "u") = Ok chunks /\
    Forall (fun c => text c <> "") chunks.
Proof.
  assert (H : chunk_size (mkSimpleChunker 20 0) / 10 <> 0) by discriminate.
  split; [exact H |].
  exact (chunk_by_sentences_nonempty_texts (mkSimpleChunker 20 0)
           "Data scientist. Ten years of work." [("CV_id", VStr "jane_1")] (fun _ => "u") H).
Defined.

Lemma chunk_by_sentences_error_small_size_witness :
  chunk_size (mkSimpleChunker 5 0) / 10 = 0 /\
  chunk_by_sentences (mkSimpleChunker 5 0) "Hello world. Bye." [] (fun _ => "u")
    = Err (ValueError "range() arg 3 must not be zero").
Proof.
  assert (H : chunk_size (mkSimpleChunker 5 0) / 10 = 0) by reflexivity.
  split; [exact H |].
  apply (proj2 (chunk_by_sentences_error_small_size (mkSimpleChunker 5 0)
                  "Hello world. Bye." [] (fun _ => "u")
                  (ValueError "range() arg 3 must not be zero") H)).
  split; [reflexivity |].
  exists "Hello world", ["Bye"]. split; [vm_compute; reflexivity | cbn; lia].
Defined.

End ChunkerExtras.

Module NormalizerExtras.
Import Normalizer TextFacts.

(** [TextNormalizer.normalize] is idempotent. *)
Theorem normalize_idempotent (text : string) :
  normalize (normalize text) = normalize text.
Proof. apply normalize_idem. Qed.

(** The output of [TextNormalizer.normalize] has no upper-case letter, and
    its words are the words of the lower-cased input. *)
Theorem normalize_lowercase_words (text : string) :
  py_lower (normalize text) = normalize text /\
  py_split_ws (normalize text) = py_split_ws (py_lower text).
Proof.
  unfold normalize. destruct (is_empty text) eqn:He.
  - destruct text; [| discriminate]. split; reflexivity.
  - rewrite py_lower_join, lowered_words_fixed, split_join by apply py_split_ws_good.
    split; reflexivity.
Qed.

Lemma search_word_in (alts : list string) (s m : string) :
  search_word alts s = Some m -> In m alts.
Proof.
  unfold search_word. generalize 0%nat as pos. generalize (List.length (list_ascii_of_string s)) as fuel.
  induction fuel as [| f IH]; intros pos; cbn.
  - destruct (List.find _ alts) eqn:E; [| discriminate].
    intros [= <-]. apply find_some in E. tauto.
  - destruct (List.find _ alts) eqn:E.
    + intros [= <-]. apply find_some in E. tauto.
    + apply IH.
Qed.

Lemma first_level_in (pats : list (list string)) (s m : string) :
  first_level pats s = Some m -> In m (List.concat pats).
Proof.
  induction pats as [| alts rest IH]; cbn [first_level List.concat]; [discriminate |].
  destruct (search_word alts s) eqn:E.
  - intros [= <-]. apply in_or_app. left. exact (search_word_in _ _ _ E).
  - intros H. apply in_or_app. right. exact (IH H).
Qed.

(** [TextNormalizer.extract_position_level] returns a position text in
    normal form ([normalize] leaves it unchanged); a level it finds is one
    of the upper-case names of [LEVEL_PATTERNS]; with no level the text is
    [normalize(text)]. *)
Theorem extract_position_level_result (txt : string) :
  let '(level, position) := extract_position_level txt in
  normalize position = position /\
  match level with
  | Some l => In l ["SENIOR"; "JUNIOR"; "MIDDLE"; "LEAD"; "INTERN"; "INTERNSHIP";
                    "ENTRY-LEVEL"; "ENTRY LEVEL"; "PRINCIPAL"; "STAFF"; "SR."; "JR."]
  | None => position = normalize txt
  end.
Proof.
  unfold extract_position_level.
  destruct (first_level LEVEL_PATTERNS (py_upper txt)) as [m |] eqn:E.
  - split; [apply normalize_idem |].
    apply first_level_in in E. cbn in E.
    repeat (destruct E as [<- | E]; [vm_compute; tauto |]). destruct E.
  - split; [apply normalize_idem | reflexivity].
Qed.

End NormalizerExtras.

Module ParserExtras.
Import Normalizer Parser ParserFacts ParserSamples TextFacts.

(** [InnoProjectParser.parse_project_row] raises [ValueError] on a row with
    fewer than two cells; otherwise it returns a project whose name,
    description and roles are in normal form ([normalize] leaves them
    unchanged), with the given [candidate_name] and [cv_id]. *)
Theorem parse_project_row_fields (cells : list string) (cv_id name : string) :
  match cells with
  | _ :: _ :: _ =>
      exists p, parse_project_row cells cv_id name = Ok p /\
        normalize (project_name p) = project_name p /\
        normalize (description p) = description p /\
        Forall (fun r => normalize r = r) (roles p) /\
        candidate_name p = name /\ Parser.cv_id p = cv_id
  | _ =>
      parse_project_row cells cv_id name =
      Err (ValueError ("Project row must have at least 2 cells, got "
                       ++ Z_to_string (Z.of_nat (List.length cells))))
  end.
Proof.
  destruct cells as [| c0 [| c1 rest]]; try reflexivity.
  eexists. split; [reflexivity |]. cbn [project_name description roles candidate_name Parser.cv_id].
  split; [apply normalize_idem |]. split; [apply normalize_idem |].
  split; [| split; reflexivity].
  apply Forall_map, Forall_forall. intros r _. apply normalize_idem.
Qed.

(** [InnoStandardParser._parse_projects] returns one project per row after
    the header of the second table that has at least two cells, and none
    when the document has fewer than two tables. *)
Theorem parse_projects_count (doc : Document) :
  List.length (parse_projects doc) =
  match tables doc with
  | _ :: projects_table :: _ =>
      List.length (List.filter (fun row => (2 <=? List.length row)%nat) (List.tl projects_table))
  | _ => 0%nat
  end.
Proof.
  unfold parse_projects. destruct (tables doc) as [| t1 [| t2 ts]]; try reflexivity.
  induction (List.tl t2) as [| row rows IH]; [reflexivity |].
  cbn [flat_map List.filter]. rewrite length_app, IH.
  destruct row as [| c0 [| c1 rest]]; reflexivity.
Qed.

(** [InnoStandardParser._parse_personal_info] always raises: [ValueError]
    when fewer than 3 non-empty paragraphs remain after stripping or when
    the document has no tables, [IndexError] when the first table has no
    row or its first row no cell, and otherwise [TypeError] from the
    constructor call [PersonalInfo(name=...)]. *)
Theorem parse_personal_info_error (doc : Document) :
  let paragraphs := List.filter (fun t => negb (is_empty t))
                                (List.map py_strip (Parser.paragraphs doc)) in
  parse_personal_info doc =
  Err (if Z.of_nat (List.length paragraphs) <? 3 then
         ValueError ("Expected at least 3 paragraphs, got "
                     ++ Z_to_string (Z.of_nat (List.length paragraphs)))
       else match tables doc with
            | [] => ValueError "Document has no tables"
            | [] :: _ | ([] :: _) :: _ => IndexError "list index out of range"
            | _ => TypeError "PersonalInfo.__init__() got an unexpected keyword argument 'name'"
            end).
Proof.
  cbv zeta. unfold parse_personal_info.
  destruct (_ <? 3); [reflexivity |].
  destruct (extract_position_level _) as [level position_clean].
  destruct (tables doc) as [| [| [| c0 cs] rows] ts]; reflexivity.
Qed.

(** The exceptions of [InnoStandardParser.parse]: a missing file gives the
    [FileNotFoundError] of [_check_file_exists] unchanged, a suffix other
    than [.docx] (any case) gives [ValueError("File must be a .docx file:
    ...")], and for a [.docx] file every failure of loading or parsing the
    document is re-raised as [ValueError("Error parsing DOCX file <path>:
    <message>")]. *)
Theorem parse_error_kinds (fs : FileSystem) (file_path : string) (now : Z) :
  (fs file_path = None ->
   parse fs file_path now = Err (FileNotFoundError ("DOCX file not found: " ++ file_path))) /\
  (fs file_path <> None -> String.eqb (py_lower (path_suffix file_path)) ".docx" = false ->
   parse fs file_path now = Err (ValueError ("File must be a .docx file: " ++ file_path))) /\
  (forall r, fs file_path = Some r ->
   String.eqb (py_lower (path_suffix file_path)) ".docx" = true ->
   exists e, bind r parse_personal_info = Err e /\
     parse fs file_path now =
     Err (ValueError ("Error parsing DOCX file " ++ file_path ++ ": " ++ exn_str e))).
Proof.
  unfold parse, check_file_exists. split; [| split].
  - intros ->. reflexivity.
  - intros Hs Hb. destruct (fs file_path); [| contradiction]. rewrite Hb. reflexivity.
  - intros r Hr Hb. rewrite Hr, Hb. cbn [bind]. unfold parse_body. rewrite Hr.
    destruct r as [doc | e0]; cbn [bind].
    + destruct (parse_personal_info_fails doc) as [e He]. rewrite He.
      exists e. split; reflexivity.
    + exists e0. split; reflexivity.
Qed.

Lemma parse_error_kinds_witness :
  jane_fs "jane_doe.docx" = Some (Ok jane_doe) /\
  String.eqb (py_lower (path_suffix "jane_doe.docx")) ".docx" = true /\
  exists e, bind (Ok jane_doe) parse_personal_info = Err e /\
    parse jane_fs "jane_doe.docx" 1700000000 =
    Err (ValueError ("Error parsing DOCX file " ++ "jane_doe.docx" ++ ": " ++ exn_str e)).
Proof.
  assert (H1 : jane_fs "jane_doe.docx" = Some (Ok jane_doe)) by reflexivity.
  assert (H2 : String.eqb (py_lower (path_suffix "jane_doe.docx")) ".docx" = true)
    by (vm_compute; reflexivity).
  split; [exact H1 | split; [exact H2 |]].
  exact (proj2 (proj2 (parse_error_kinds jane_fs "jane_doe.docx" 1700000000))
           (Ok jane_doe) H1 H2).
Defined.

End ParserExtras.

Module CollectionFacts.
Import Chunker Parser ParserFacts Models Collection TextFacts.

Lemma add_cv_from_file_unchanged (self : CVCollection) (fs : FileSystem)
  (file_path : string) (now : Z) :
  exists e, add_cv_from_file self fs file_path now = (self, Err e).
Proof.
  unfold add_cv_from_file. destruct (parse_always_fails fs file_path now) as [e ->].
  exists e. reflexivity.
Qed.

Lemma wrap_from_fresh (i total : nat) (ts : list string) (meta : dict) (f1 f2 : nat -> string) :
  dict_get meta "CV_id" <> None ->
  wrap_from i total ts meta f1 = wrap_from i total ts meta f2.
Proof.
  intros H. revert i. induction ts as [| t ts IH]; intros i; [reflexivity |].
  cbn [wrap_from]. rewrite IH. f_equal. f_equal. unfold chunk_id.
  destruct (dict_get meta "CV_id"); [reflexivity | contradiction].
Qed.

Lemma chunk_by_sentences_fresh (ch : SimpleChunker) (txt : string) (meta : dict)
  (f1 f2 : nat -> string) :
  dict_get meta "CV_id" <> None ->
  chunk_by_sentences ch txt meta f1 = chunk_by_sentences ch txt meta f2.
Proof.
  intros H. unfold chunk_by_sentences. destruct (sentence_texts ch txt); [| reflexivity].
  cbn [bind]. unfold wrap_chunks. rewrite (wrap_from_fresh _ _ _ _ f1 f2 H). reflexivity.
Qed.

Lemma project_loop_fresh (ch : SimpleChunker) (ps : list Project) (f1 f2 : nat -> nat -> string)
  (k : nat) (pcs : list Chunk) :
  project_loop ch ps f1 k pcs = project_loop ch ps f2 k pcs.
Proof.
  revert k pcs. induction ps as [| p ps IH]; intros k pcs; [reflexivity |].
  cbn [project_loop].
  rewrite (chunk_by_sentences_fresh ch (description p) (Project_metadata p) (f1 k) (f2 k))
    by discriminate.
  destruct (chunk_by_sentences _ _ _ _); [apply IH | reflexivity].
Qed.

Lemma cv_loop_fresh (ch : SimpleChunker) (cs : list CV) (f1 f2 : nat -> nat -> string)
  (k : nat) (cvc pcs : list Chunk) :
  cv_loop ch cs f1 k cvc pcs = cv_loop ch cs f2 k cvc pcs.
Proof.
  revert k cvc pcs. induction cs as [| cv cs IH]; intros k cvc pcs; [reflexivity |].
  cbn [cv_loop].
  assert (Hv : chunk_value ch (CV_text cv) (CV_metadata cv) (f1 k) =
               chunk_value ch (CV_text cv) (CV_metadata cv) (f2 k)).
  { unfold chunk_value. destruct (CV_text cv); try reflexivity.
    apply chunk_by_sentences_fresh. discriminate. }
  rewrite Hv, (project_loop_fresh ch (projects cv) f1 f2).
  destruct (chunk_value ch (CV_text cv) (CV_metadata cv) (f2 k)); [| reflexivity].
  destruct (project_loop ch (projects cv) f2 (S k) pcs) as [[pcs' k'] [e |]];
    [reflexivity | apply IH].
Qed.

Lemma project_loop_app (ch : SimpleChunker) (ps : list Project) (f : nat -> nat -> string)
  (k : nat) (pcs : list Chunk) :
  project_loop ch ps f k pcs =
  let '(a, k', e) := project_loop ch ps f k [] in ((pcs ++ a)%list, k', e).
Proof.
  revert k pcs. induction ps as [| p ps IH]; intros k pcs; cbn [project_loop].
  - rewrite app_nil_r. reflexivity.
  - destruct (chunk_by_sentences _ _ _ _) as [cs |]; [| rewrite app_nil_r; reflexivity].
    rewrite (IH (S k) (pcs ++ cs)%list), (IH (S k) ([] ++ cs)%list).
    destruct (project_loop ch ps f (S k) []) as [[a k'] e].
    rewrite app_nil_l, app_assoc. reflexivity.
Qed.

Lemma cv_loop_app (ch : SimpleChunker) (cs : list CV) (f : nat -> nat -> string)
  (k : nat) (cvc pcs : list Chunk) :
  cv_loop ch cs f k cvc pcs =
  let '(a, b, e) := cv_loop ch cs f k [] [] in ((cvc ++ a)%list, (pcs ++ b)%list, e).
Proof.
  revert k cvc pcs. induction cs as [| cv cs IH]; intros k cvc pcs; cbn [cv_loop].
  - rewrite !app_nil_r. reflexivity.
  - destruct (chunk_value _ _ _ _) as [cs0 |]; [| rewrite !app_nil_r; reflexivity].
    rewrite (project_loop_app ch (projects cv) f (S k) pcs).
    destruct (project_loop ch (projects cv) f (S k) []) as [[b0 k'] [e |]].
    + rewrite ?app_nil_l, ?app_assoc. reflexivity.
    + rewrite (IH k' (cvc ++ cs0)%list (pcs ++ b0)%list), (IH k' ([] ++ cs0)%list b0).
      destruct (cv_loop ch cs f k' [] []) as [[a b] e].
      rewrite app_nil_l, !app_assoc. reflexivity.
Qed.

Lemma string_of_uint_no_underscore (u : Decimal.uint) :
  no_underscore (NilEmpty.string_of_uint u).
Proof. unfold no_underscore. induction u; cbn; constructor; try discriminate; assumption. Qed.

Lemma Z_to_string_no_underscore (n : Z) : no_underscore (Z_to_string n).
Proof.
  unfold Z_to_string, NilEmpty.string_of_int. destruct (Z.to_int n) as [u | u].
  - apply string_of_uint_no_underscore.
  - unfold no_underscore. cbn. constructor; [discriminate | apply string_of_uint_no_underscore].
Qed.

Lemma Z_to_string_inj (n m : Z) : Z_to_string n = Z_to_string m -> n = m.
Proof.
  unfold Z_to_string. intros H.
  apply DecimalZ.to_int_inj.
  apply (f_equal NilEmpty.int_of_string) in H. rewrite !NilEmpty.isi in H.
  injection H as H. exact H.
Qed.

Lemma underscore_split (s1 s2 a b : string) :
  no_underscore s1 -> no_underscore s2 ->
  s1 ++ String "_" a = s2 ++ String "_" b -> s1 = s2.
Proof.
  unfold no_underscore. revert s2. induction s1 as [| c s1 IH]; intros s2 H1 H2 E;
    destruct s2 as [| d s2]; cbn in *.
  - reflexivity.
  - injection E as E _. inversion H2. subst. contradiction.
  - injection E as E _. inversion H1. subst. contradiction.
  - injection E as -> E. inversion H1. inversion H2. f_equal. apply IH; assumption.
Qed.

Lemma project_entry_id_inj (n m : nat) (c d : Chunk) :
  project_entry_id n c = project_entry_id m d -> n = m.
Proof.
  unfold project_entry_id. cbn. intros E. injection E as E.
  apply underscore_split in E; try apply Z_to_string_no_underscore.
  apply Z_to_string_inj in E. lia.
Qed.

Lemma entry_ids_nodup (s : nat) (l : list Chunk) :
  NoDup (List.map (fun nc => project_entry_id (fst nc) (snd nc))
                  (combine (seq s (List.length l)) l)).
Proof.
  revert s. induction l as [| c l IH]; intros s; cbn; constructor; [| apply IH].
  intros Hin. apply in_map_iff in Hin as [[n d] [E Hin]]. cbn in E.
  apply project_entry_id_inj in E. apply in_combine_l, in_seq in Hin. lia.
Qed.

End CollectionFacts.

Module CollectionExtras.
Import Chunker Parser Models Collection CollectionFacts CollectionSamples.

(** [Project.from_dict(project.metadata)] rebuilds every field of the
    project except [cv_id], which becomes [""]: [metadata] stores it under
    the key ["CV_id"] and [from_dict] reads ["cv_id"]. *)
Theorem Project_from_dict_metadata (p : Project) :
  Project_from_dict (Project_metadata p) =
  Project_value (mkProject (project_name p) (candidate_name p) (description p) (roles p) "").
Proof. reflexivity. Qed.

(** [CVCollection.add_cv_from_file] never adds a CV: it always raises and
    leaves the collection unchanged. *)
Theorem add_cv_from_file_never_adds (self : CVCollection) (fs : FileSystem)
  (file_path : string) (now : Z) :
  exists e, add_cv_from_file self fs file_path now = (self, Err e).
Proof. apply add_cv_from_file_unchanged. Qed.

(** A [CVCollection] fed through [add_cv_from_file] with any files stays
    as created: [generate_chunks] then returns [True] and adds nothing, and
    [prepare_chunks_qdrant] returns empty lists. *)
Theorem collection_pipeline_empty (chunk_size chunk_overlap : Z) (fs : FileSystem)
  (files : list (string * Z)) (method : string) (fresh : nat -> nat -> string) :
  let st := List.fold_left (fun st f => fst (add_cv_from_file st fs (fst f) (snd f)))
                           files (CVCollection_init chunk_size chunk_overlap) in
  st = CVCollection_init chunk_size chunk_overlap /\
  generate_chunks st method fresh = (st, true) /\
  prepare_chunks_qdrant st = (mkVectorDBData [] [] [], mkVectorDBData [] [] []).
Proof.
  cbv zeta.
  assert (Hf : forall st, List.fold_left (fun st f => fst (add_cv_from_file st fs (fst f) (snd f)))
                                         files st = st).
  { induction files as [| [p now] files IH]; intros st; [reflexivity |].
    cbn [List.fold_left fst snd].
    destruct (add_cv_from_file_unchanged st fs p now) as [e ->]. apply IH. }
  rewrite Hf. split; [reflexivity | split; reflexivity].
Qed.

(** The chunks of [CVCollection.generate_chunks] carry no random part: both
    metadata dicts it passes have a ["CV_id"] key, so the [uuid4()] default
    of the chunk ids is never used. *)
Theorem generate_chunks_uuid_free (self : CVCollection) (method : string)
  (f1 f2 : nat -> nat -> string) :
  generate_chunks self method f1 = generate_chunks self method f2.
Proof. unfold generate_chunks. rewrite (cv_loop_fresh _ _ f1 f2). reflexivity. Qed.

(** [CVCollection.generate_chunks] appends to the chunk lists: when a call
    succeeds, a second call appends the same chunks again. *)
Theorem generate_chunks_twice (self s1 : CVCollection) (method : string)
  (f1 f2 : nat -> nat -> string) :
  generate_chunks self method f1 = (s1, true) ->
  exists new_cv new_pr,
    cv_chunks s1 = (cv_chunks self ++ new_cv)%list /\
    project_chunks s1 = (project_chunks self ++ new_pr)%list /\
    generate_chunks s1 method f2 =
    (mkCVCollection (cvs self) (chunker self) (cv_chunks s1 ++ new_cv)%list
                    (project_chunks s1 ++ new_pr)%list, true).
Proof.
  unfold generate_chunks.
  rewrite (cv_loop_app _ _ _ _ (cv_chunks self)).
  destruct (cv_loop (chunker self) (cvs self) f1 0 [] []) as [[a b] e] eqn:E.
  intros H. destruct e; [discriminate |]. injection H as <-.
  exists a, b. cbn [cv_chunks project_chunks cvs chunker].
  split; [reflexivity | split; [reflexivity |]].
  rewrite (cv_loop_app _ _ _ _ (cv_chunks self ++ a)%list), (cv_loop_fresh _ _ f2 f1), E.
  reflexivity.
Qed.

Lemma generate_chunks_twice_witness :
  generate_chunks sample_collection "sentences" (fun _ _ => "u") =
    (fst (generate_chunks sample_collection "sentences" (fun _ _ => "u")), true) /\
  List.length (cv_chunks (fst (generate_chunks
                 (fst (generate_chunks sample_collection "sentences" (fun _ _ => "u")))
                 "sentences" (fun _ _ => "v")))) =
  (2 * List.length (cv_chunks (fst (generate_chunks sample_collection "sentences"
                                      (fun _ _ => "u")))))%nat.
Proof.
  assert (H : generate_chunks sample_collection "sentences" (fun _ _ => "u") =
              (fst (generate_chunks sample_collection "sentences" (fun _ _ => "u")), true))
    by (vm_compute; reflexivity).
  split; [exact H |].
  destruct (generate_chunks_twice sample_collection _ "sentences" (fun _ _ => "u")
              (fun _ _ => "v") H) as (new_cv & new_pr & H1 & _ & H3).
  rewrite H3. cbn [fst cv_chunks]. rewrite H1, length_app. cbn. lia.
Defined.

(** [CVCollection.clear] empties only the CV list: afterwards
    [generate_chunks] adds nothing and [prepare_chunks_qdrant] returns the
    chunks generated before. *)
Theorem clear_keeps_chunks (self : CVCollection) (method : string) (f : nat -> nat -> string) :
  generate_chunks (clear self) method f = (clear self, true) /\
  prepare_chunks_qdrant (clear self) = prepare_chunks_qdrant self.
Proof. split; reflexivity. Qed.

(** [CVCollection.prepare_chunks_qdrant] gives the project chunks pairwise
    distinct ids [pr#<n>_<chunk id>], one per chunk, even when chunk ids
    repeat; the CV chunks keep their ids. *)
Theorem prepare_chunks_qdrant_project_ids (self : CVCollection) :
  let '(cv_data, project_data) := prepare_chunks_qdrant self in
  NoDup (vd_ids project_data) /\
  List.length (vd_ids project_data) = List.length (project_chunks self) /\
  vd_ids cv_data = List.map id (cv_chunks self).
Proof.
  unfold prepare_chunks_qdrant. cbn [vd_ids].
  split; [apply entry_ids_nodup |]. split; [| reflexivity].
  rewrite length_map, length_combine, length_seq. lia.
Qed.

End CollectionExtras.

Module VectorDBFacts2.
Import VectorDB.

Lemma try_except_ok {A} (m : M A) (h a : A) :
  snd (try_except m h) = Ok a -> snd m = Ok a \/ a = h.
Proof. destruct m as [t [x | e]]; cbn; intros [= <-]; auto. Qed.

Lemma mbind_ok {A B} (m : M A) (k : A -> M B) (b : B) :
  snd (mbind m k) = Ok b -> exists a, snd m = Ok a /\ snd (k a) = Ok b.
Proof.
  destruct m as [t [a | e]]; cbn; [| discriminate].
  destruct (k a) as [t' r] eqn:E. cbn. intros ->. exists a. rewrite E. auto.
Qed.

Lemma format_single (resp : QueryResponse) (rs : list SearchResult) :
  (exists pts, resp = query_response pts) ->
  qdrant_format_results resp = Ok rs -> (List.length rs <= 1)%nat.
Proof.
  intros [pts ->]. unfold qdrant_format_results, query_response, py_index.
  destruct pts as [| p pts]; cbn; [discriminate |]. intros [= <-]. cbn. lia.
Qed.

Lemma zip4_length {A B C D} (la : list A) (lb : list B) (lc : list C) (ld : list D) :
  List.length (zip4 la lb lc ld) =
  Nat.min (Nat.min (Nat.min (List.length la) (List.length lb)) (List.length lc)) (List.length ld).
Proof.
  revert lb lc ld. induction la as [| a la IH]; intros lb lc ld; [reflexivity |].
  destruct lb, lc, ld; cbn; try lia. rewrite IH. lia.
Qed.

Lemma zip4_nth {A B C D} (la : list A) (lb : list B) (lc : list C) (ld : list D)
  (j : nat) (a : A) (b : B) (c : C) (d : D) :
  nth_error (zip4 la lb lc ld) j = Some (a, b, c, d) ->
  nth_error la j = Some a /\ nth_error lb j = Some b /\
  nth_error lc j = Some c /\ nth_error ld j = Some d.
Proof.
  revert j lb lc ld. induction la as [| a0 la IH]; intros j lb lc ld;
    [destruct j; discriminate |].
  destruct lb, lc, ld; try (destruct j; discriminate).
  destruct j; cbn; [intros [= -> -> -> ->]; auto | apply IH].
Qed.

Lemma bind_ok_inv {A B} (m : result A) (k : A -> result B) (b : B) :
  bind m k = Ok b -> exists a, m = Ok a /\ k a = Ok b.
Proof. destruct m as [a | e]; cbn; [eauto | discriminate]. Qed.

Lemma bind_ie {A B} (m : result A) (k : A -> result B) :
  ie_or_ok m -> (forall a, m = Ok a -> k a = Err IE) -> bind m k = Err IE.
Proof. intros [-> | [a ->]] H; cbn; auto. Qed.

Lemma bind_ie_or_ok {A B} (m : result A) (k : A -> result B) :
  ie_or_ok m -> (forall a, ie_or_ok (k a)) -> ie_or_ok (bind m k).
Proof. intros [-> | [a ->]] H; cbn; [left; reflexivity | apply H]. Qed.

Lemma py_index_ie_or_ok {A} (l : list A) (i : nat) : ie_or_ok (py_index l i).
Proof. unfold py_index, ie_or_ok. destruct (nth_error l i); eauto. Qed.

Lemma map_result_ie_or_ok {A B} (f : A -> B) (m : result A) :
  ie_or_ok m -> ie_or_ok (map_result f m).
Proof. intros [-> | [a ->]]; cbn; [left | right]; eauto. Qed.

Lemma py_index_ok {A} (l : list A) (i : nat) (x : A) :
  py_index l i = Ok x -> nth_error l i = Some x.
Proof. unfold py_index. destruct (nth_error l i); congruence. Qed.

End VectorDBFacts2.

Module VectorDBExtras.
Import VectorDB VectorDBOps VectorDBFacts2 VectorDBSamples.

(** [QdrantManager.search] and [filtered_search] return at most one result,
    whatever the [limit]: [_format_results] iterates over the fields of the
    query response (its only field is [points]) and keeps the first point
    of each. *)
Theorem qdrant_search_at_most_one (q : QdrantManager) (collection_name : string)
  (query_text : option string) (query_embedding : option (list float))
  (query : string) (filters : pyval) (limit : Z) :
  (forall srv, q_client q = Some srv ->
   forall name f e l r, qs_query_points srv name f e l = Ok r ->
   exists pts, r = query_response pts) ->
  (forall rs, snd (qdrant_search q collection_name query_text query_embedding limit) = Ok rs ->
   (List.length rs <= 1)%nat) /\
  (forall rs, snd (qdrant_filtered_search q collection_name query filters limit) = Ok rs ->
   (List.length rs <= 1)%nat).
Proof.
  intros Hshape. split; intros rs.
  - unfold qdrant_search. destruct (q_connected q); cbn [negb]; [| intros [= <-]; cbn; lia].
    intros H. apply try_except_ok in H as [H | ->]; [| cbn; lia].
    apply mbind_ok in H as [[e |] [_ H]]; [| injection H as <-; cbn; lia].
    apply mbind_ok in H as [c [Hc H]].
    apply mbind_ok in H as [resp [Hr H]]. cbn in H, Hr.
    destruct (q_client q) as [srv |] eqn:Hq; cbn in Hc; [| discriminate]. injection Hc as <-.
    exact (format_single resp rs (Hshape srv eq_refl _ _ _ _ _ Hr) H).
  - unfold qdrant_filtered_search. destruct (q_connected q); cbn [negb]; [| intros [= <-]; cbn; lia].
    intros H. apply try_except_ok in H as [H | ->]; [| cbn; lia].
    destruct (String.eqb query ""); [injection H as <-; cbn; lia |].
    destruct filters as [| | | | | fs]; try (injection H as <-; cbn; lia).
    apply mbind_ok in H as [embs [_ H]].
    apply mbind_ok in H as [emb [_ H]].
    apply mbind_ok in H as [flt [_ H]].
    apply mbind_ok in H as [c [Hc H]].
    apply mbind_ok in H as [resp [Hr H]]. cbn in H, Hr.
    destruct (q_client q) as [srv |] eqn:Hq; cbn in Hc; [| discriminate]. injection Hc as <-.
    exact (format_single resp rs (Hshape srv eq_refl _ _ _ _ _ Hr) H).
Qed.

Lemma qdrant_search_at_most_one_witness :
  (forall srv, q_client qdrant_online = Some srv ->
   forall name f e l r, qs_query_points srv name f e l = Ok r ->
   exists pts, r = query_response pts) /\
  (forall rs, snd (qdrant_search qdrant_online "cvs" (Some "python") None 10) = Ok rs ->
   (List.length rs <= 1)%nat).
Proof.
  assert (H : forall srv, q_client qdrant_online = Some srv ->
              forall name f e l r, qs_query_points srv name f e l = Ok r ->
              exists pts, r = query_response pts).
  { intros srv Hs. injection Hs as <-. intros name f e l r Hr. injection Hr as <-.
    eexists; reflexivity. }
  split; [exact H |].
  exact (proj1 (qdrant_search_at_most_one qdrant_online "cvs" (Some "python") None
                  "python" (VDict []) 10 H)).
Defined.

(** The points built by [QdrantManager.insert_documents] are as many as the
    shortest of [ids], [embeddings], [documents] and [metadatas]; the
    point at position [j] has the numeric id [j], the [j]-th embedding, and
    a payload with the [j]-th document, metadata and text id. *)
Theorem make_points_positions (ids : list string) (embeddings : list (list float))
  (documents : list string) (metadatas : list pyval) :
  List.length (make_points ids embeddings documents metadatas) =
    Nat.min (Nat.min (Nat.min (List.length ids) (List.length embeddings))
                     (List.length documents)) (List.length metadatas) /\
  forall j p, nth_error (make_points ids embeddings documents metadatas) j = Some p ->
  exists doc_id embedding document metadata,
    nth_error ids j = Some doc_id /\ nth_error embeddings j = Some embedding /\
    nth_error documents j = Some document /\ nth_error metadatas j = Some metadata /\
    p = mkPointStruct (Z.of_nat j) embedding
          [("document", VStr document); ("metadata", metadata); ("text_id", VStr doc_id)].
Proof.
  unfold make_points.
  match goal with
  | |- context [?g 0 (zip4 ids embeddings documents metadatas)] =>
      assert (H : forall l i0, List.length (g i0 l) = List.length l /\
                forall j p, nth_error (g i0 l) j = Some p ->
                exists doc_id embedding document metadata,
                  nth_error l j = Some (doc_id, embedding, document, metadata) /\
                  p = mkPointStruct (i0 + Z.of_nat j) embedding
                        [("document", VStr document); ("metadata", metadata);
                         ("text_id", VStr doc_id)])
  end.
  { induction l as [| [[[a b] c] d] l IH]; intros i0; split.
    - reflexivity.
    - intros j p Hj. destruct j; discriminate.
    - cbn. f_equal. apply IH.
    - intros [| j] p Hj; cbn in Hj.
      + injection Hj as <-. exists a, b, c, d. split; [reflexivity |]. f_equal. lia.
      + destruct (proj2 (IH (i0 + 1)) j p Hj) as (a' & b' & c' & d' & Hn & ->).
        exists a', b', c', d'. split; [exact Hn |]. f_equal. lia. }
  destruct (H (zip4 ids embeddings documents metadatas) 0) as [Hl Hn].
  split; [rewrite Hl; apply zip4_length |].
  intros j p Hj. destruct (Hn j p Hj) as (a & b & c & d & Hz & ->).
  destruct (zip4_nth _ _ _ _ _ _ _ _ _ Hz) as (H1 & H2 & H3 & H4).
  exists a, b, c, d. repeat split; assumption.
Qed.

(** [VectorDBManager.search_by_text] on a manager that is not connected
    still calls the embedder, outside any [try]: an embedder error
    propagates, an empty embedding list raises [IndexError], and otherwise
    the search returns [[]]. *)
Theorem search_by_text_disconnected (mgr : Manager) (collection_name query : string)
  (limit : Z) (e : Embedder) :
  is_connected mgr = false -> embedder_of mgr = Some e ->
  search_by_text mgr collection_name query limit =
  ([Embed [query]],
   match get_embeddings e [query] with
   | Ok (_ :: _) => Ok []
   | Ok [] => Err (IndexError "list index out of range")
   | Err err => Err err
   end).
Proof.
  intros Hc He. unfold search_by_text. rewrite He. unfold embed, invoke, mbind.
  destruct (get_embeddings e [query]) as [[| emb embs] | err]; [reflexivity | | reflexivity].
  cbn. destruct mgr as [q | m]; cbn in Hc |- *; unfold qdrant_search, chroma_search; rewrite Hc; reflexivity.
Qed.

Lemma search_by_text_disconnected_witness :
  is_connected (Qdrant qdrant_offline) = false /\
  embedder_of (Qdrant qdrant_offline) = Some unit_embedder /\
  search_by_text (Qdrant qdrant_offline) "cvs" "python" 10 = ([Embed ["python"]], Ok []).
Proof.
  split; [reflexivity | split; [reflexivity |]].
  exact (search_by_text_disconnected (Qdrant qdrant_offline) "cvs" "python" 10 unit_embedder
           eq_refl eq_refl).
Defined.

(** [QdrantManager.recreate_collection] on a connected manager never
    raises; it lists the collections, deletes the collection when it is
    listed, and creates it; a failed listing counts as not listed. *)
Theorem recreate_collection_trace (q : QdrantManager) (srv : QdrantServer)
  (collection : string) (meatadata : pyval) :
  q_connected q = true -> q_client q = Some srv ->
  recreate_collection q collection meatadata =
  (let found := match qs_get_collections srv with
                | Ok names => existsb (String.eqb collection) names
                | Err _ => false
                end in
   ((QGetCollections :: (if found then [QDeleteCollection collection] else []) ++
     [QCreateCollection collection (dimensions (q_embedder q))])%list, Ok tt)).
Proof.
  intros Hc Hs. unfold recreate_collection, check_collection, qdrant_list_collections,
    qdrant_create_collection, qdrant_delete_collection.
  rewrite Hc, Hs. cbn.
  destruct (qs_get_collections srv) as [names |]; cbn;
    [destruct (existsb (String.eqb collection) names) | ]; cbn;
    repeat match goal with
           | |- context [qs_create_collection ?a ?b ?c ?d] => destruct (qs_create_collection a b c d)
           | |- context [qs_delete_collection ?a ?b] => destruct (qs_delete_collection a b)
           end; reflexivity.
Qed.

Lemma recreate_collection_trace_witness :
  q_connected qdrant_online = true /\ q_client qdrant_online = Some qdrant_sample_server /\
  recreate_collection qdrant_online "cvs" VNone =
  ([QGetCollections; QDeleteCollection "cvs"; QCreateCollection "cvs" 1], Ok tt).
Proof.
  split; [reflexivity | split; [reflexivity |]].
  rewrite (recreate_collection_trace qdrant_online qdrant_sample_server "cvs" VNone
             eq_refl eq_refl).
  reflexivity.
Defined.

(** [ChromaManager._format_results] returns one result per entry of
    [documents[0]], the [i]-th holding the [i]-th document and the [i]-th
    id of [ids[0]]; when [ids[0]] is shorter than [documents[0]] it raises
    [IndexError] instead of returning a partial list. *)
Theorem chroma_format_results_rows (results : ChromaQueryResult) (docs0 : list pyval)
  (rest : list (list pyval)) :
  r_documents results = Some (docs0 :: rest) ->
  (forall rs, chroma_format_results results = Ok rs ->
     List.length rs = List.length docs0 /\
     forall j r, nth_error rs j = Some r ->
       nth_error docs0 j = Some (sr_document r) /\
       exists ids0, nth_error (r_ids results) 0 = Some ids0 /\ nth_error ids0 j = Some (sr_id r)) /\
  ((List.length (hd [] (r_ids results)) < List.length docs0)%nat ->
     chroma_format_results results = Err (IndexError "list index out of range")).
Proof.
  intros Hd. unfold chroma_format_results. rewrite Hd. cbn [nonempty].
  destruct docs0 as [| d ds].
  { split; [| cbn; lia]. intros rs Hrs. injection Hrs as <-. split; [reflexivity |].
    intros j r Hj. destruct j; discriminate. }
  match goal with |- context [?g 0%nat (List.length (d :: ds))] => set (go := g) end.
  split.
  - assert (Hgo : forall n i rs, go i n = Ok rs ->
              List.length rs = n /\
              forall j r, nth_error rs j = Some r ->
                nth_error (d :: ds) (i + j) = Some (sr_document r) /\
                exists ids0, nth_error (r_ids results) 0 = Some ids0 /\
                             nth_error ids0 (i + j) = Some (sr_id r)).
    { induction n as [| n IH]; intros i rs Hrs.
      - cbn in Hrs. injection Hrs as <-. split; [reflexivity |].
        intros j r Hj. destruct j; discriminate.
      - cbn [go] in Hrs.
        apply bind_ok_inv in Hrs as [ids0 [Hids Hrs]].
        apply bind_ok_inv in Hrs as [rid [Hrid Hrs]].
        apply bind_ok_inv in Hrs as [doc [Hdoc Hrs]].
        apply bind_ok_inv in Hrs as [md [_ Hrs]].
        apply bind_ok_inv in Hrs as [score [_ Hrs]].
        apply bind_ok_inv in Hrs as [dist [_ Hrs]].
        apply bind_ok_inv in Hrs as [tl [Htl Hrs]].
        injection Hrs as <-.
        destruct (IH (S i) tl Htl) as [Hlen Hnth].
        split; [cbn; lia |].
        apply py_index_ok in Hids, Hrid, Hdoc.
        intros [| j] r Hj.
        + injection Hj as <-. cbn [sr_document sr_id]. rewrite Nat.add_0_r.
          split; [exact Hdoc | exists ids0; split; assumption].
        + cbn in Hj. destruct (Hnth j r Hj) as [H1 H2].
          rewrite Nat.add_succ_r. split; [exact H1 | exact H2]. }
    intros rs Hrs. destruct (Hgo _ 0%nat rs Hrs) as [Hlen Hnth].
    split; [exact Hlen |]. intros j r Hj. exact (Hnth j r Hj).
  - intros Hlt.
    assert (Hgo : forall n i, (List.length (hd [] (r_ids results)) < i + n)%nat ->
                  n <> 0%nat -> go i n = Err IE).
    { induction n as [| n IH]; intros i Hl Hn; [contradiction |].
      cbn [go].
      apply bind_ie; [apply py_index_ie_or_ok | intros ids0 Hids].
      apply py_index_ok in Hids.
      assert (Hh : hd [] (r_ids results) = ids0)
        by (destruct (r_ids results); cbn in Hids |- *; congruence).
      rewrite Hh in Hl.
      destruct (Nat.lt_ge_cases i (List.length ids0)) as [Hi | Hi].
      - apply bind_ie; [apply py_index_ie_or_ok | intros rid _].
        apply bind_ie; [apply py_index_ie_or_ok | intros doc _].
        apply bind_ie;
          [destruct (nonempty (r_metadatas results));
           [apply bind_ie_or_ok; intros; apply py_index_ie_or_ok
           | right; eexists; reflexivity]
          | intros md _].
        apply bind_ie;
          [destruct (nonempty (r_distances results));
           [apply bind_ie_or_ok; intros; apply py_index_ie_or_ok
           | right; eexists; reflexivity]
          | intros score _].
        apply bind_ie;
          [destruct (nonempty (r_distances results));
           [apply bind_ie_or_ok; [apply py_index_ie_or_ok |];
            intros; apply map_result_ie_or_ok, py_index_ie_or_ok
           | right; eexists; reflexivity]
          | intros dist _].
        assert (Hr : go (S i) n = Err IE) by (apply IH; [rewrite Hh; lia | lia]).
        apply bind_ie; [left; exact Hr | intros tl Htl; congruence].
      - apply bind_ie; [apply py_index_ie_or_ok | intros rid Hrid].
        apply py_index_ok in Hrid.
        rewrite (proj2 (nth_error_None ids0 i) Hi) in Hrid. discriminate. }
    apply Hgo; [exact Hlt | discriminate].
Qed.

Lemma chroma_format_results_rows_witness :
  (forall rs, chroma_format_results chroma_sample_result = Ok rs ->
     List.length rs = 1%nat) /\
  chroma_format_results
    (mkChromaQueryResult [["cv1_0"]] (Some [[VStr "a"; VStr "b"]]) None None) =
  Err (IndexError "list index out of range").
Proof.
  split.
  - intros rs Hrs.
    exact (proj1 (proj1 (chroma_format_results_rows chroma_sample_result
                           [VStr "Python developer"] [] eq_refl) rs Hrs)).
  - apply (proj2 (chroma_format_results_rows
                    (mkChromaQueryResult [["cv1_0"]] (Some [[VStr "a"; VStr "b"]]) None None)
                    [VStr "a"; VStr "b"] [] eq_refl)).
    cbn. lia.
Defined.

End VectorDBExtras.
